(** * alive-host-cli: the STG capability gate

    A shallow embedding of the TypeScript sources

      - alive-core/stg/types.ts, policy.ts, evaluate.ts
      - alive-body/stg/state.ts, audit.ts, gate.ts
      - phase-38-execution/execute.ts

    and the properties of the gate stated over it.

    Vocabulary.  The specification renames the identifiers of the code:

      runGated        = runCognitiveCycle     readAll   = getAuditLog
      createPolicy    = createSTGPolicy       evaluate  = evaluateGate
      close           = closeSTG              windowId  = stg_open_id
      VIOLATION       = CONSTITUTIONAL_VIOLATION
      ACTION_START    = COGNITION_START       ACTION_END = COGNITION_END
      no_window_open  = no_stg_open           window_expired = stg_expired
      unauthorized_scope = unauthorized_cognition
      GateViolation   = an Error whose message starts CONSTITUTIONAL_VIOLATION

    The development keeps the names of the code. *)

From Stdlib Require Import Floats.
From stdpp Require Import base option list strings gmap.

Local Open Scope string_scope.

(** ** JavaScript values used by the gate *)

Module Js.

(** A JS [number] is an IEEE 754 binary64 value. *)
Abbreviation number := PrimFloat.float.

(** [a < b], [a <= b], [a > b] on numbers (all false on NaN). *)
Definition lt (a b : number) : bool := PrimFloat.ltb a b.
Definition le (a b : number) : bool := PrimFloat.leb a b.
Definition gt (a b : number) : bool := PrimFloat.ltb b a.
(** [a == b] on numbers. *)
Definition num_eq (a b : number) : bool := PrimFloat.eqb a b.

(** [s === t] on strings. *)
Definition str_eq (s t : string) : bool := String.eqb s t.

(** [s.startsWith(p)]. *)
Definition startsWith (s p : string) : bool := String.prefix p s.

(** What a [throw] statement carries: an Error object (of class Error
    or of a subclass, told apart by [name]), a value that converts to a
    string, given by that string, or a value whose conversion to a string
    throws (an object with no usable [toString] or [valueOf], such as
    [Object.create(null)]). *)
Inductive thrown : Type :=
| ErrorObj (name message : string)
| OtherValue (image : string)
| Unconvertible.

(** [new Error(message)]. *)
Abbreviation new_Error message := (ErrorObj "Error" message).

(** The TypeError that the conversion of an [Unconvertible] value throws. *)
Definition conversion_TypeError : thrown :=
  ErrorObj "TypeError" "Cannot convert object to primitive value".

(** The outcome of a call: a returned value or a thrown one. *)
Inductive completion (T : Type) : Type :=
| Returned (v : T)
| Threw (e : thrown).
Arguments Returned {T} v.
Arguments Threw {T} e.

Definition is_returned {T} (c : completion T) : bool :=
  match c with Returned _ => true | Threw _ => false end.

(** [String(error)]: Error.prototype.toString for an Error object; the
    conversion itself throws for an [Unconvertible] value. *)
Definition String_of (e : thrown) : completion string :=
  match e with
  | ErrorObj n m =>
      Returned (if str_eq n "" then m
                else if str_eq m "" then n
                else n ++ ": " ++ m)
  | OtherValue s => Returned s
  | Unconvertible => Threw conversion_TypeError
  end.

(** [error instanceof Error ? error.message : String(error)]. *)
Definition message_of (e : thrown) : completion string :=
  match e with
  | ErrorObj _ m => Returned m
  | OtherValue s => Returned s
  | Unconvertible => Threw conversion_TypeError
  end.

(** Values stored under [metadata: Record<string, unknown>]. *)
Inductive meta : Type :=
| MStr (s : string)
| MNum (n : number)
| MNull.

End Js.

(** ** alive-core/stg: types, policy, evaluator *)

Module Core.

(** types.ts: [enum GateDecision]. *)
Inductive GateDecision : Type := OPEN | DEFER | DENY.

(** types.ts: [type CognitiveScope = string]. *)
Abbreviation CognitiveScope := string.

(** types.ts: [interface STGSignals]. *)
Record STGSignals : Type := mkSignals {
  prediction_error : Js.number;
  novelty_delta : Js.number;
  resources_ok : bool;
  intent_authorized : bool;
  requested_scope : CognitiveScope;
}.

(** types.ts: [interface GateResult]. *)
Record GateResult : Type := mkResult {
  decision : GateDecision;
  reason : string;
}.

(** policy.ts: [interface STGPolicy]. *)
Record STGPolicy : Type := mkPolicy {
  epsilon_prediction_error : Js.number;
  delta_novelty : Js.number;
  max_cognitive_duration_ms : Js.number;
  max_compute_budget : Js.number;
  cooldown_duration_ms : Js.number;
  allowed_scopes : gset CognitiveScope;
  policy_hash : string;
}.

(** policy.ts: the parameter object of [createSTGPolicy]; the scopes
    arrive as an [Iterable]. *)
Record PolicyParams : Type := mkParams {
  p_epsilon_prediction_error : Js.number;
  p_delta_novelty : Js.number;
  p_max_cognitive_duration_ms : Js.number;
  p_max_compute_budget : Js.number;
  p_cooldown_duration_ms : Js.number;
  p_allowed_scopes : list CognitiveScope;
  p_policy_hash : string;
}.

(** policy.ts: [createSTGPolicy].  The body is one [return] of a frozen
    object literal; [new Set(iterable)] collects the scopes.  There is no
    [throw] in the function. *)
Definition createSTGPolicy (params : PolicyParams) : Js.completion STGPolicy :=
  Js.Returned
    {| epsilon_prediction_error := p_epsilon_prediction_error params;
       delta_novelty := p_delta_novelty params;
       max_cognitive_duration_ms := p_max_cognitive_duration_ms params;
       max_compute_budget := p_max_compute_budget params;
       cooldown_duration_ms := p_cooldown_duration_ms params;
       allowed_scopes := list_to_set (p_allowed_scopes params);
       policy_hash := p_policy_hash params |}.

(** evaluate.ts: [evaluateGate]. *)
Definition evaluateGate (signals : STGSignals) (policy : STGPolicy)
    (now cooldown_until : Js.number) : GateResult :=
  if Js.lt now cooldown_until then
    {| decision := DENY; reason := "cooldown_active" |}
  else if negb (intent_authorized signals) then
    {| decision := DENY; reason := "unauthorized_intent" |}
  else if negb (resources_ok signals) then
    {| decision := DEFER; reason := "insufficient_resources" |}
  else if Js.le (prediction_error signals) (epsilon_prediction_error policy) then
    {| decision := DENY; reason := "low_prediction_error" |}
  else if Js.le (novelty_delta signals) (delta_novelty policy) then
    {| decision := DENY; reason := "low_novelty" |}
  else
    {| decision := OPEN; reason := "thresholds_satisfied" |}.

(** *** The specification's reading of the evaluator and of the policy
        constructor *)

(** The ordered rule list of the specification (section 4.2), each rule a
    condition with the result it gives. *)
Definition spec_rules (signals : STGSignals) (policy : STGPolicy)
    (now cooldown_until : Js.number) : list (bool * GateResult) :=
  [ (Js.lt now cooldown_until, mkResult DENY "cooldown_active");
    (negb (intent_authorized signals), mkResult DENY "unauthorized_intent");
    (negb (resources_ok signals), mkResult DEFER "insufficient_resources");
    (Js.le (prediction_error signals) (epsilon_prediction_error policy),
      mkResult DENY "low_prediction_error");
    (Js.le (novelty_delta signals) (delta_novelty policy),
      mkResult DENY "low_novelty") ].

(** The result of the first rule whose condition holds, [otherwise] when
    none does. *)
Fixpoint first_match (rules : list (bool * GateResult)) (otherwise : GateResult)
    : GateResult :=
  match rules with
  | [] => otherwise
  | (c, r) :: rest => if c then r else first_match rest otherwise
  end.

(** The input constraints of the specification (section 4.1): a threshold
    is negative when it is below zero. *)
Definition negative (x : Js.number) : bool := Js.lt x 0%float.

Definition spec_invalid_params (params : PolicyParams) : bool :=
  negative (p_epsilon_prediction_error params)
  || negative (p_delta_novelty params)
  || negative (p_max_cognitive_duration_ms params)
  || negative (p_max_compute_budget params)
  || negative (p_cooldown_duration_ms params)
  || bool_decide (p_allowed_scopes params = []).

End Core.

(** ** alive-body/stg/state.ts *)

Module State.

(** [type STGStatus = "OPEN" | "CLOSED"]. *)
Inductive STGStatus : Type := OPEN | CLOSED.

Definition status_eq (a b : STGStatus) : bool :=
  match a, b with
  | OPEN, OPEN | CLOSED, CLOSED => true
  | _, _ => false
  end.

(** The string a status is at run time. *)
Definition status_string (s : STGStatus) : string :=
  match s with OPEN => "OPEN" | CLOSED => "CLOSED" end.

(** [interface STGState]; [null] is [None]. *)
Record STGState : Type := mkState {
  state : STGStatus;
  last_open_time : option Js.number;
  expires_at : option Js.number;
  scope : option string;
  stg_open_id : option string;
  cooldown_until : Js.number;
}.

(** The initial value of the module variable [_state]. *)
Definition initial : STGState :=
  {| state := CLOSED;
     last_open_time := None;
     expires_at := None;
     scope := None;
     stg_open_id := None;
     cooldown_until := 0%float |}.

(** The functions below read or replace the module variable [_state],
    passed explicitly. *)

Definition getSTGState (_state : STGState) : STGState := _state.

Definition setSTGState (next : STGState) (_state : STGState) : STGState := next.

(** [closeSTG(now)]: both arms of the conditional are [_state.cooldown_until]. *)
Definition closeSTG (now : Js.number) (_state : STGState) : STGState :=
  {| state := CLOSED;
     last_open_time := last_open_time _state;
     expires_at := None;
     scope := None;
     stg_open_id := None;
     cooldown_until :=
       if Js.gt (cooldown_until _state) now
       then cooldown_until _state
       else cooldown_until _state |}.

(** The parameter object of [openSTG]. *)
Record OpenParams : Type := mkOpen {
  o_now : Js.number;
  o_expires_at : Js.number;
  o_scope : string;
  o_stg_open_id : string;
  o_cooldown_until : Js.number;
}.

Definition openSTG (params : OpenParams) (_state : STGState) : STGState :=
  {| state := OPEN;
     last_open_time := Some (o_now params);
     expires_at := Some (o_expires_at params);
     scope := Some (o_scope params);
     stg_open_id := Some (o_stg_open_id params);
     cooldown_until := o_cooldown_until params |}.

End State.

(** ** alive-body/stg/audit.ts *)

Module Audit.

(** [type AuditEventType], extended with the three EXECUTION tags that
    phase-38-execution/execute.ts logs. *)
Inductive AuditEventType : Type :=
| STG_OPEN | STG_CLOSE | STG_DEFER | STG_DENY
| COGNITION_START | COGNITION_END
| CONSTITUTIONAL_VIOLATION | GATE_EVALUATION
| EXECUTION_START | EXECUTION_END | EXECUTION_ERROR.

Definition type_eq (a b : AuditEventType) : bool :=
  match a, b with
  | STG_OPEN, STG_OPEN | STG_CLOSE, STG_CLOSE | STG_DEFER, STG_DEFER
  | STG_DENY, STG_DENY | COGNITION_START, COGNITION_START
  | COGNITION_END, COGNITION_END
  | CONSTITUTIONAL_VIOLATION, CONSTITUTIONAL_VIOLATION
  | GATE_EVALUATION, GATE_EVALUATION | EXECUTION_START, EXECUTION_START
  | EXECUTION_END, EXECUTION_END | EXECUTION_ERROR, EXECUTION_ERROR => true
  | _, _ => false
  end.

(** [interface AuditEvent]; an absent optional field is [None]. *)
Record AuditEvent : Type := mkEvent {
  type : AuditEventType;
  timestamp : Js.number;
  reason : string;
  stg_open_id : option string;
  scope : option string;
  metadata : option (list (string * Js.meta));
}.

(** Arrays are objects: a variable holds a reference to one, and every
    holder of the reference sees the same array. *)
Abbreviation ref := positive.

(** The part of the store audit.ts works on: the module variable [_log]
    and the arrays it has pointed to. *)
Record Store : Type := mkStore {
  _log : ref;
  arrays : gmap ref (list AuditEvent);
}.

(** The elements of the array behind a reference. *)
Definition elements (r : ref) (s : Store) : list AuditEvent :=
  default [] (arrays s !! r).

(** [let _log: AuditEvent[] = []]. *)
Definition initial : Store :=
  {| _log := 1%positive; arrays := {[ 1%positive := [] ]} |}.

(** [logAuditEvent(event)]: [_log.push(event)], in place. *)
Definition logAuditEvent (event : AuditEvent) (s : Store) : Store :=
  {| _log := _log s;
     arrays := <[ _log s := (elements (_log s) s ++ [event])%list ]> (arrays s) |}.

(** [getAuditLog()]: [return _log], the reference itself. *)
Definition getAuditLog (s : Store) : ref := _log s.

(** [clearAuditLog()]: [_log = []], a new array. *)
Definition clearAuditLog (s : Store) : Store :=
  let r := fresh (dom (arrays s)) in
  {| _log := r; arrays := <[ r := [] ]> (arrays s) |}.

(** What the holder of a reference can do at run time: an in-place
    update of the array ([push], [pop], [splice], [length = 0], an
    index assignment), given by its effect [f] on the elements. *)
Definition mutate (r : ref) (f : list AuditEvent -> list AuditEvent)
    (s : Store) : Store :=
  {| _log := _log s;
     arrays := <[ r := f (elements r s) ]> (arrays s) |}.

(** The events of the log, oldest first: what a reader of
    [getAuditLog()] iterates over. *)
Definition contents (s : Store) : list AuditEvent :=
  elements (getAuditLog s) s.

(** [getAuditLog().filter(e => e.type === t).length]. *)
Definition count_type (t : AuditEventType) (l : list AuditEvent) : nat :=
  length (filter (fun e => type_eq (type e) t = true) l).

End Audit.

(** ** The store of a running process *)

Module Proc.

(** The module variables of state.ts and audit.ts, the clock that
    [Date.now()] reads, and [ext]: whatever else a task can observe or
    change (the flag a test task sets, a file, ...). *)
Record World (E : Type) : Type := mkWorld {
  stg : State.STGState;
  audit : Audit.Store;
  clock : Js.number;
  ext : E;
}.
Arguments mkWorld {E} _ _ _ _.
Arguments stg {E} _.
Arguments audit {E} _.
Arguments clock {E} _.
Arguments ext {E} _.

Section Ops.
Context {E : Type}.

Definition Date_now (w : World E) : Js.number := clock w.

Definition getSTGState (w : World E) : State.STGState :=
  State.getSTGState (stg w).

Definition closeSTG (now : Js.number) (w : World E) : World E :=
  mkWorld (State.closeSTG now (stg w)) (audit w) (clock w) (ext w).

Definition openSTG (params : State.OpenParams) (w : World E) : World E :=
  mkWorld (State.openSTG params (stg w)) (audit w) (clock w) (ext w).

Definition logAuditEvent (event : Audit.AuditEvent) (w : World E) : World E :=
  mkWorld (stg w) (Audit.logAuditEvent event (audit w)) (clock w) (ext w).

(** The events of the audit log, oldest first. *)
Definition log (w : World E) : list Audit.AuditEvent :=
  Audit.contents (audit w).

(** Time passing outside any call: the clock reads [t]. *)
Definition at_time (t : Js.number) (w : World E) : World E :=
  mkWorld (stg w) (audit w) t (ext w).

End Ops.

(** A zero-argument callable [() => T]: it returns or throws, and may
    change anything in the store while it runs. *)
Definition Task (E T : Type) : Type := World E -> Js.completion T * World E.

End Proc.

(** ** alive-body/stg/gate.ts *)

Module Gate.
Import Proc.

(** [isScopeAuthorized(requested, authorized)]. *)
Definition isScopeAuthorized (requested : string) (authorized : option string) : bool :=
  match authorized with
  | None => false
  | Some authorized =>
      Js.str_eq requested authorized
      || Js.startsWith requested (authorized ++ ".")
  end.

(** [`${state.scope}`] for a [string | null]. *)
Definition show_scope (s : option string) : string :=
  match s with Some a => a | None => "null" end.

Definition meta_scope (s : option string) : Js.meta :=
  match s with Some a => Js.MStr a | None => Js.MNull end.

(** [state.expires_at !== null && now > state.expires_at]. *)
Definition expired (now : Js.number) (state : State.STGState) : bool :=
  match State.expires_at state with
  | Some e => Js.gt now e
  | None => false
  end.

Section Run.
Context {E T : Type}.

(** [runCognitiveCycle(task, requestedScope)]. *)
Definition runCognitiveCycle (task : Task E T) (requestedScope : string)
    (w : World E) : Js.completion T * World E :=
  let now := Date_now w in
  let state := getSTGState w in
  (* 1. Check if STG is OPEN *)
  if negb (State.status_eq (State.state state) State.OPEN) then
    let w := logAuditEvent
      {| Audit.type := Audit.CONSTITUTIONAL_VIOLATION;
         Audit.timestamp := now;
         Audit.reason := "no_stg_open";
         Audit.stg_open_id := None;
         Audit.scope := Some requestedScope;
         Audit.metadata :=
           Some [("state", Js.MStr (State.status_string (State.state state)))] |} w in
    (Js.Threw (Js.new_Error
       "CONSTITUTIONAL_VIOLATION: Cognition attempted without STG_OPEN"), w)
  (* 2. Check if STG has expired *)
  else if expired now state then
    let w := logAuditEvent
      {| Audit.type := Audit.CONSTITUTIONAL_VIOLATION;
         Audit.timestamp := now;
         Audit.reason := "stg_expired";
         Audit.stg_open_id := State.stg_open_id state;
         Audit.scope := Some requestedScope;
         Audit.metadata :=
           Some [("expires_at",
                  match State.expires_at state with
                  | Some e => Js.MNum e | None => Js.MNull end);
                 ("now", Js.MNum now)] |} w in
    (Js.Threw (Js.new_Error "CONSTITUTIONAL_VIOLATION: STG_OPEN has expired"), w)
  (* 3. Validate scope authorization *)
  else if negb (isScopeAuthorized requestedScope (State.scope state)) then
    let w := logAuditEvent
      {| Audit.type := Audit.CONSTITUTIONAL_VIOLATION;
         Audit.timestamp := now;
         Audit.reason := "unauthorized_cognition";
         Audit.stg_open_id := State.stg_open_id state;
         Audit.scope := Some requestedScope;
         Audit.metadata :=
           Some [("authorized_scope", meta_scope (State.scope state))] |} w in
    (Js.Threw (Js.new_Error
       ("CONSTITUTIONAL_VIOLATION: Scope '" ++ requestedScope
        ++ "' not authorized (authorized: '"
        ++ show_scope (State.scope state) ++ "')")), w)
  else
    (* 4. Log cognition start *)
    let w := logAuditEvent
      {| Audit.type := Audit.COGNITION_START;
         Audit.timestamp := now;
         Audit.reason := "authorized";
         Audit.stg_open_id := State.stg_open_id state;
         Audit.scope := Some requestedScope;
         Audit.metadata := None |} w in
    (* 5. Execute cognition *)
    match task w with
    | (Js.Returned result, w) =>
        (* 6. Log cognition end *)
        let w := logAuditEvent
          {| Audit.type := Audit.COGNITION_END;
             Audit.timestamp := Date_now w;
             Audit.reason := "completed";
             Audit.stg_open_id := State.stg_open_id state;
             Audit.scope := Some requestedScope;
             Audit.metadata := None |} w in
        (Js.Returned result, w)
    | (Js.Threw error, w) =>
        (* Log failed cognition: the event literal is built before the
           call, and [String(error)] may throw while it is *)
        match Js.String_of error with
        | Js.Returned image =>
            let w := logAuditEvent
              {| Audit.type := Audit.COGNITION_END;
                 Audit.timestamp := Date_now w;
                 Audit.reason := "failed";
                 Audit.stg_open_id := State.stg_open_id state;
                 Audit.scope := Some requestedScope;
                 Audit.metadata := Some [("error", Js.MStr image)] |} w in
            (Js.Threw error, w)
        | Js.Threw conversion_error => (Js.Threw conversion_error, w)
        end
    end.

End Run.

End Gate.

(** ** phase-38-execution/execute.ts *)

Module Phase38.
Import Proc.

(** [interface ExecutionRequest<T>]. *)
Record ExecutionRequest (E T : Type) : Type := mkRequest {
  scope : string;
  execute : Task E T;
  stg_open_id : option string;
}.
Arguments mkRequest {E T} _ _ _.
Arguments scope {E T} _.
Arguments execute {E T} _.
Arguments stg_open_id {E T} _.

(** [state.scope !== request.scope] for a [string | null] against a
    [string]. *)
Definition scope_differs (authorized : option string) (requested : string) : bool :=
  match authorized with
  | Some a => negb (Js.str_eq a requested)
  | None => true
  end.

Section Run.
Context {E T : Type}.

(** [runExecution(request)]. *)
Definition runExecution (request : ExecutionRequest E T) (w : World E)
    : Js.completion T * World E :=
  let now := Date_now w in
  let state := getSTGState w in
  (* 1. STG MUST be OPEN *)
  if negb (State.status_eq (State.state state) State.OPEN) then
    let w := logAuditEvent
      {| Audit.type := Audit.CONSTITUTIONAL_VIOLATION;
         Audit.timestamp := now;
         Audit.reason := "no_stg_open";
         Audit.stg_open_id := None;
         Audit.scope := Some (scope request);
         Audit.metadata := None |} w in
    (Js.Threw (Js.new_Error
       "CONSTITUTIONAL_VIOLATION: Execution attempted without STG authorization (no_stg_open)"), w)
  (* 2. Check expiration *)
  else if Gate.expired now state then
    let w := logAuditEvent
      {| Audit.type := Audit.CONSTITUTIONAL_VIOLATION;
         Audit.timestamp := now;
         Audit.reason := "authorization_expired";
         Audit.stg_open_id := None;
         Audit.scope := Some (scope request);
         Audit.metadata :=
           Some [("expires_at",
                  match State.expires_at state with
                  | Some e => Js.MNum e | None => Js.MNull end)] |} w in
    (* Force close on expiry *)
    let w := closeSTG now w in
    (Js.Threw (Js.new_Error
       "CONSTITUTIONAL_VIOLATION: Execution attempted with expired authorization"), w)
  (* 3. Scope MUST match authorized scope *)
  else if scope_differs (State.scope state) (scope request) then
    let w := logAuditEvent
      {| Audit.type := Audit.CONSTITUTIONAL_VIOLATION;
         Audit.timestamp := now;
         Audit.reason := "unauthorized_execution";
         Audit.stg_open_id := None;
         Audit.scope := Some (scope request);
         Audit.metadata :=
           Some [("authorized_scope", Gate.meta_scope (State.scope state))] |} w in
    (Js.Threw (Js.new_Error
       ("CONSTITUTIONAL_VIOLATION: Execution scope '" ++ scope request
        ++ "' not authorized (authorized: '"
        ++ Gate.show_scope (State.scope state) ++ "')")), w)
  else
    (* 4. Execute *)
    let w := logAuditEvent
      {| Audit.type := Audit.EXECUTION_START;
         Audit.timestamp := now;
         Audit.reason := "execution_started";
         Audit.stg_open_id := State.stg_open_id state;
         Audit.scope := Some (scope request);
         Audit.metadata := None |} w in
    match execute request w with
    | (Js.Returned result, w) =>
        let w := logAuditEvent
          {| Audit.type := Audit.EXECUTION_END;
             Audit.timestamp := Date_now w;
             Audit.reason := "execution_completed";
             Audit.stg_open_id := State.stg_open_id state;
             Audit.scope := Some (scope request);
             Audit.metadata := None |} w in
        (Js.Returned result, w)
    | (Js.Threw error, w) =>
        (* the event literal is built before the call, and
           [String(error)] may throw while it is *)
        match Js.message_of error with
        | Js.Returned image =>
            let w := logAuditEvent
              {| Audit.type := Audit.EXECUTION_ERROR;
                 Audit.timestamp := Date_now w;
                 Audit.reason := "execution_failed";
                 Audit.stg_open_id := None;
                 Audit.scope := Some (scope request);
                 Audit.metadata := Some [("error", Js.MStr image)] |} w in
            (Js.Threw error, w)
        | Js.Threw conversion_error => (Js.Threw conversion_error, w)
        end
    end.

End Run.

End Phase38.

(** ** Notions used to state the properties *)

Module Spec.
Import Proc.

(** A GateViolation: an [Error] whose message carries the
    CONSTITUTIONAL_VIOLATION tag. *)
Definition is_GateViolation (e : Js.thrown) : bool :=
  match e with
  | Js.ErrorObj _ m => Js.startsWith m "CONSTITUTIONAL_VIOLATION: "
  | Js.OtherValue _ => false
  | Js.Unconvertible => false
  end.

Definition threw_GateViolation {T} (c : Js.completion T) : bool :=
  match c with
  | Js.Threw e => is_GateViolation e
  | Js.Returned _ => false
  end.

(** The scope rule in the specification's words: [s] equals [a], or [s]
    starts with [a + "."]. *)
Definition scope_within (s a : string) : Prop :=
  s = a \/ Js.startsWith s (a ++ ".") = true.

(** The window is open. *)
Definition is_open (st : State.STGState) : bool :=
  State.status_eq (State.state st) State.OPEN.

(** A call at time [now] for scope [s] is unauthorized under [st]: the
    window is closed, or expired, or the scope is not authorized. *)
Definition unauthorized (st : State.STGState) (now : Js.number) (s : string) : bool :=
  negb (is_open st)
  || Gate.expired now st
  || negb (Gate.isScopeAuthorized s (State.scope st)).

(** The audit events of the gate, as the object literals of gate.ts. *)
Definition violation_no_stg_open (st : State.STGState) (now : Js.number)
    (s : string) : Audit.AuditEvent :=
  {| Audit.type := Audit.CONSTITUTIONAL_VIOLATION;
     Audit.timestamp := now;
     Audit.reason := "no_stg_open";
     Audit.stg_open_id := None;
     Audit.scope := Some s;
     Audit.metadata :=
       Some [("state", Js.MStr (State.status_string (State.state st)))] |}.

Definition violation_stg_expired (st : State.STGState) (now : Js.number)
    (s : string) : Audit.AuditEvent :=
  {| Audit.type := Audit.CONSTITUTIONAL_VIOLATION;
     Audit.timestamp := now;
     Audit.reason := "stg_expired";
     Audit.stg_open_id := State.stg_open_id st;
     Audit.scope := Some s;
     Audit.metadata :=
       Some [("expires_at",
              match State.expires_at st with
              | Some e => Js.MNum e | None => Js.MNull end);
             ("now", Js.MNum now)] |}.

Definition violation_unauthorized_cognition (st : State.STGState)
    (now : Js.number) (s : string) : Audit.AuditEvent :=
  {| Audit.type := Audit.CONSTITUTIONAL_VIOLATION;
     Audit.timestamp := now;
     Audit.reason := "unauthorized_cognition";
     Audit.stg_open_id := State.stg_open_id st;
     Audit.scope := Some s;
     Audit.metadata :=
       Some [("authorized_scope", Gate.meta_scope (State.scope st))] |}.

Definition cognition_start (st : State.STGState) (now : Js.number)
    (s : string) : Audit.AuditEvent :=
  {| Audit.type := Audit.COGNITION_START;
     Audit.timestamp := now;
     Audit.reason := "authorized";
     Audit.stg_open_id := State.stg_open_id st;
     Audit.scope := Some s;
     Audit.metadata := None |}.

Definition cognition_completed (st : State.STGState) (now : Js.number)
    (s : string) : Audit.AuditEvent :=
  {| Audit.type := Audit.COGNITION_END;
     Audit.timestamp := now;
     Audit.reason := "completed";
     Audit.stg_open_id := State.stg_open_id st;
     Audit.scope := Some s;
     Audit.metadata := None |}.

Definition cognition_failed (st : State.STGState) (now : Js.number)
    (s : string) (image : string) : Audit.AuditEvent :=
  {| Audit.type := Audit.COGNITION_END;
     Audit.timestamp := now;
     Audit.reason := "failed";
     Audit.stg_open_id := State.stg_open_id st;
     Audit.scope := Some s;
     Audit.metadata := Some [("error", Js.MStr image)] |}.

(** The violation a denied call logs: the first check that fails. *)
Definition violation_of (st : State.STGState) (now : Js.number) (s : string)
    : Audit.AuditEvent :=
  if negb (is_open st) then violation_no_stg_open st now s
  else if Gate.expired now st then violation_stg_expired st now s
  else violation_unauthorized_cognition st now s.

(** The violation logged by [runExecution] on a scope mismatch. *)
Definition violation_unauthorized_execution (st : State.STGState)
    (now : Js.number) (s : string) : Audit.AuditEvent :=
  {| Audit.type := Audit.CONSTITUTIONAL_VIOLATION;
     Audit.timestamp := now;
     Audit.reason := "unauthorized_execution";
     Audit.stg_open_id := None;
     Audit.scope := Some s;
     Audit.metadata :=
       Some [("authorized_scope", Gate.meta_scope (State.scope st))] |}.

(** What the gate makes of the outcome of the task: a returned value is
    handed over after COGNITION_END with reason completed; a thrown value
    is thrown again after COGNITION_END with reason failed and its string
    image, unless the conversion to a string throws, in which case the
    conversion's error is thrown and nothing is appended. *)
Definition conclude {E T} (st : State.STGState) (s : string)
    (r : Js.completion T * World E) : Js.completion T * World E :=
  match r with
  | (Js.Returned v, w2) =>
      (Js.Returned v, logAuditEvent (cognition_completed st (clock w2) s) w2)
  | (Js.Threw error, w2) =>
      match Js.String_of error with
      | Js.Returned image =>
          (Js.Threw error, logAuditEvent (cognition_failed st (clock w2) s image) w2)
      | Js.Threw conversion_error => (Js.Threw conversion_error, w2)
      end
  end.

(** The message of the Error a denied call throws. *)
Definition denial_message (st : State.STGState) (now : Js.number) (s : string)
    : string :=
  if negb (is_open st) then
    "CONSTITUTIONAL_VIOLATION: Cognition attempted without STG_OPEN"
  else if Gate.expired now st then
    "CONSTITUTIONAL_VIOLATION: STG_OPEN has expired"
  else
    "CONSTITUTIONAL_VIOLATION: Scope '" ++ s
    ++ "' not authorized (authorized: '"
    ++ Gate.show_scope (State.scope st) ++ "')".

(** The gate lets the call through: it logs COGNITION_START, invokes the
    task on the resulting store, and concludes on the task's outcome. *)
Definition admitted {E T} (task : Task E T) (s : string) (w : World E) : Prop :=
  let w1 := logAuditEvent (cognition_start (stg w) (clock w) s) w in
  Gate.runCognitiveCycle task s w = conclude (stg w) s (task w1).

Section Burst.
Context {E T : Type}.

(** One attempt of a burst: the time it is made at, its task and the
    scope it asks for. *)
Record Attempt : Type := mkAttempt {
  a_now : Js.number;
  a_task : Task E T;
  a_scope : string;
}.

(** Consecutive calls of the gate, each in a [try]/[catch] that keeps
    the outcome; the clock reads [a_now] when the call is made. *)
Fixpoint burst (attempts : list Attempt) (w : World E)
    : list (Js.completion T) * World E :=
  match attempts with
  | [] => ([], w)
  | a :: rest =>
      let '(c, w1) := Gate.runCognitiveCycle (a_task a) (a_scope a)
                        (at_time (a_now a) w) in
      let '(cs, w2) := burst rest w1 in
      (c :: cs, w2)
  end.

(** The same attempt with another task. *)
Definition with_task (t : Task E T) (a : Attempt) : Attempt :=
  mkAttempt (a_now a) t (a_scope a).

End Burst.

(** A task that sets an external flag and returns. *)
Definition set_flag {T} (v : T) : Task bool T :=
  fun w => (Js.Returned v, mkWorld (stg w) (audit w) (clock w) true).

(** A task that throws. *)
Definition throwing {E T} (e : Js.thrown) : Task E T :=
  fun w => (Js.Threw e, w).

(** A store for the examples: a window over scope [demo] that expires at
    2000, the clock at 1000, the flag unset. *)
Definition demo_state : State.STGState :=
  State.openSTG
    {| State.o_now := 900%float;
       State.o_expires_at := 2000%float;
       State.o_scope := "demo";
       State.o_stg_open_id := "w-1";
       State.o_cooldown_until := 0%float |} State.initial.

Definition demo_world : World bool :=
  mkWorld demo_state Audit.initial 1000%float false.

Definition closed_world : World bool :=
  mkWorld State.initial Audit.initial 1000%float false.

(** The same window, looked at after its expiry. *)
Definition late_world : World bool :=
  mkWorld demo_state Audit.initial 2500%float false.

(** Three attempts against a closed window, a millisecond apart. *)
Definition demo_burst : list (@Attempt bool string) :=
  [ mkAttempt 1000%float (set_flag "X") "demo";
    mkAttempt 1001%float (set_flag "Y") "demo.think";
    mkAttempt 1002%float (throwing (Js.new_Error "TASK_EXECUTED")) "cognition.test" ].

(** A request to [runExecution] for a descendant of the window's scope. *)
Definition demo_request : Phase38.ExecutionRequest bool string :=
  Phase38.mkRequest "demo.think" (set_flag "X") None.

(** Parameters for [createSTGPolicy]: a well-formed set, and three sets
    that each break one input constraint of the specification. *)
Definition good_params : Core.PolicyParams :=
  Core.mkParams 0.5%float 0.25%float 1000%float 100%float 5000%float
    ["demo.think-once"] "hash-1".

Definition negative_threshold_params : Core.PolicyParams :=
  Core.mkParams (-1)%float 0.25%float 1000%float 100%float 5000%float
    ["demo.think-once"] "hash-1".

Definition no_scope_params : Core.PolicyParams :=
  Core.mkParams 0.5%float 0.25%float 1000%float 100%float 5000%float
    [] "hash-1".

Definition negative_cooldown_params : Core.PolicyParams :=
  Core.mkParams 0.5%float 0.25%float 1000%float 100%float (-5000)%float
    ["demo.think-once"] "hash-1".

(** An audit event for the examples. *)
Definition sample_event : Audit.AuditEvent :=
  {| Audit.type := Audit.STG_OPEN;
     Audit.timestamp := 900%float;
     Audit.reason := "thresholds_satisfied";
     Audit.stg_open_id := Some "w-1";
     Audit.scope := Some "demo";
     Audit.metadata := None |}.

End Spec.
(** ** alive-core/stg/invariants.ts *)

Module Invariants.

(** [interface STGOpenEvent]. *)
Record STGOpenEvent : Type := mkOpenEvent {
  stg_open_id : string;
  scope : Core.CognitiveScope;
  issued_at : Js.number;
  expires_at : Js.number;
}.

(** [interface CognitionEvent]; its [stg_open_id] and [scope] fields carry
    a prefix here, the names being taken by [STGOpenEvent]. *)
Record CognitionEvent : Type := mkCognitionEvent {
  c_stg_open_id : string;
  c_scope : Core.CognitiveScope;
  completed_at : Js.number;
}.

(** [scopeIsSubset(requested, authorized)]. *)
Definition scopeIsSubset (requested authorized : Core.CognitiveScope) : bool :=
  Js.str_eq requested authorized
  || Js.startsWith requested (authorized ++ ".").

(** [verifyCognitionAuthorization(cognition, opens)]: [opens.some(...)]. *)
Definition verifyCognitionAuthorization (cognition : CognitionEvent)
    (opens : list STGOpenEvent) : bool :=
  existsb
    (fun open =>
       Js.str_eq (stg_open_id open) (c_stg_open_id cognition)
       && Js.lt (issued_at open) (completed_at cognition)
       && Js.le (completed_at cognition) (expires_at open)
       && scopeIsSubset (c_scope cognition) (scope open))
    opens.

End Invariants.

(** ** alive-genesis/types.ts and cognitive.ts *)

Module Genesis.
Import Proc.

(** [type GenesisCognitionAuthorization]. *)
Record GenesisCognitionAuthorization : Type := mkAuth {
  stg_open_id : string;
  scope : Core.CognitiveScope;
  expires_at : Js.number;
}.

Section Payload.
(** The values a payload can be ([unknown] in the source). *)
Context {P : Type}.

(** [interface GenesisTask]; an absent payload is [None]. *)
Record GenesisTask : Type := mkTask {
  kind : string;
  payload : option P;
}.

(** What [performGenesisTask] puts under [output]: a string, the payload
    of the task, or the object literal of the ANALYZE case. *)
Inductive Output : Type :=
| OutString (s : string)
| OutPayload (p : option P)
| OutAnalysis (task_kind : string) (analyzed_at : Js.number) (p : option P).

(** [interface GenesisResult]; [kind] carries a prefix here, the name
    being taken by [GenesisTask]. *)
Record GenesisResult : Type := mkGenesisResult {
  r_kind : string;
  output : Output;
}.

(** What the clock reads after the step has begun.  The step reads
    [Date.now()] itself first; [at_gate] is what the gate reads at its
    entry, [at_task] what the ANALYZE case reads, and [at_end] what the
    gate reads for its COGNITION_END event. *)
Record Readings : Type := mkReadings {
  at_gate : Js.number;
  at_task : Js.number;
  at_end : Js.number;
}.

Section Step.
Context {E : Type}.

(** [performGenesisTask(task)]: the [switch] on [task.kind]; the ANALYZE
    case reads [Date.now()]. *)
Definition performGenesisTask (task : GenesisTask) (w : World E) : GenesisResult :=
  if Js.str_eq (kind task) "THINK" then
    {| r_kind := "THOUGHT";
       output := OutString ("Genesis processed task: " ++ kind task) |}
  else if Js.str_eq (kind task) "REFLECT" then
    {| r_kind := "REFLECTION";
       output := OutPayload (payload task) |}
  else if Js.str_eq (kind task) "ANALYZE" then
    {| r_kind := "ANALYSIS";
       output := OutAnalysis (kind task) (Date_now w) (payload task) |}
  else
    {| r_kind := "UNKNOWN";
       output := OutString ("Unknown task kind: " ++ kind task) |}.

(** The closure [() => performGenesisTask(task)], run while the clock
    moves on: the task sees the clock at [at_task], and the clock reads
    [at_end] when the closure has returned. *)
Definition genesis_closure (task : GenesisTask) (later : Readings)
    : Task E GenesisResult :=
  fun w =>
    (Js.Returned (performGenesisTask task (at_time (at_task later) w)),
     at_time (at_end later) w).

(** [genesisCognitiveStep(task, auth)]; the result [null] is [None].  The
    step reads the clock of the store; the gate is entered once the clock
    reads [at_gate]. *)
Definition genesisCognitiveStep (task : GenesisTask)
    (auth : option GenesisCognitionAuthorization) (later : Readings)
    (w : World E) : Js.completion (option GenesisResult) * World E :=
  match auth with
  | None =>
      (* 1. Authorization missing *)
      (Js.Returned None, w)
  | Some auth =>
      (* 2. Authorization expired *)
      if Js.gt (Date_now w) (expires_at auth) then (Js.Returned None, w)
      else
        (* 3. Authorized cognition *)
        match Gate.runCognitiveCycle (genesis_closure task later) (scope auth)
                (at_time (at_gate later) w) with
        | (Js.Returned r, w) => (Js.Returned (Some r), w)
        | (Js.Threw e, w) => (Js.Threw e, w)
        end
  end.

End Step.
End Payload.

Arguments GenesisTask P : clear implicits.
Arguments GenesisResult P : clear implicits.
Arguments Output P : clear implicits.

End Genesis.

(** ** observation/aliveSnapshot.ts *)

Module Observation.
Import Proc.

(** [type AliveSnapshot]; an [undefined] field is [None]. *)
Record AliveSnapshot : Type := mkSnapshot {
  stg_state : State.STGStatus;
  last_event : option Audit.AuditEventType;
  last_event_time : option Js.number;
  scope : option string;
  expires_at : option Js.number;
}.

(** [getAliveSnapshot()]. *)
Definition getAliveSnapshot {E} (w : World E) : AliveSnapshot :=
  let stgState := getSTGState w in
  let auditLog := Audit.elements (Audit.getAuditLog (audit w)) (audit w) in
  let lastEvent :=
    if Nat.ltb 0 (length auditLog)
    then auditLog !! (length auditLog - 1)
    else None in
  {| stg_state := State.state stgState;
     last_event := option_map Audit.type lastEvent;
     last_event_time := option_map Audit.timestamp lastEvent;
     scope := State.scope stgState;
     expires_at := State.expires_at stgState |}.

End Observation.

(** ** Notions used to state further properties *)

Module Behaviour.
Import Proc.

(** The two operations that write the window state. *)
Inductive StgOp : Type :=
| Open (params : State.OpenParams)
| Close (now : Js.number).

Definition apply_op (op : StgOp) (st : State.STGState) : State.STGState :=
  match op with
  | Open params => State.openSTG params st
  | Close now => State.closeSTG now st
  end.

(** The state after a sequence of operations, the first one first. *)
Definition apply_ops (ops : list StgOp) (st : State.STGState) : State.STGState :=
  foldl (fun s op => apply_op op s) st ops.

(** The shape of a state that [openSTG] and [closeSTG] produce: a closed
    window carries no scope, id or expiry, an open one carries all three
    and the time it was opened. *)
Definition well_shaped (st : State.STGState) : Prop :=
  match State.state st with
  | State.CLOSED =>
      State.scope st = None /\ State.stg_open_id st = None
      /\ State.expires_at st = None
  | State.OPEN =>
      is_Some (State.scope st) /\ is_Some (State.stg_open_id st)
      /\ is_Some (State.expires_at st) /\ is_Some (State.last_open_time st)
  end.

(** The variable [_log] points to an array of the store. *)
Definition log_allocated (s : Audit.Store) : Prop :=
  is_Some (Audit.arrays s !! Audit._log s).

(** A task that leaves the window state and the audit store alone; it
    may return or throw, let time pass and change anything else. *)
Definition quiet {E T} (task : Task E T) : Prop :=
  forall w, stg (snd (task w)) = stg w /\ audit (snd (task w)) = audit w.

(** The checks of [runExecution] refuse the call: the window is closed,
    or expired, or the requested scope is not the authorized one. *)
Definition exec_refused (st : State.STGState) (now : Js.number) (s : string) : bool :=
  negb (Spec.is_open st)
  || Gate.expired now st
  || Phase38.scope_differs (State.scope st) s.

(** The audit events of [runExecution], as the object literals of
    execute.ts. *)
Definition execution_start (st : State.STGState) (now : Js.number) (s : string)
    : Audit.AuditEvent :=
  {| Audit.type := Audit.EXECUTION_START;
     Audit.timestamp := now;
     Audit.reason := "execution_started";
     Audit.stg_open_id := State.stg_open_id st;
     Audit.scope := Some s;
     Audit.metadata := None |}.

Definition execution_end (st : State.STGState) (now : Js.number) (s : string)
    : Audit.AuditEvent :=
  {| Audit.type := Audit.EXECUTION_END;
     Audit.timestamp := now;
     Audit.reason := "execution_completed";
     Audit.stg_open_id := State.stg_open_id st;
     Audit.scope := Some s;
     Audit.metadata := None |}.

Definition execution_error (now : Js.number) (s : string) (image : string)
    : Audit.AuditEvent :=
  {| Audit.type := Audit.EXECUTION_ERROR;
     Audit.timestamp := now;
     Audit.reason := "execution_failed";
     Audit.stg_open_id := None;
     Audit.scope := Some s;
     Audit.metadata := Some [("error", Js.MStr image)] |}.

Definition authorization_expired (st : State.STGState) (now : Js.number) (s : string)
    : Audit.AuditEvent :=
  {| Audit.type := Audit.CONSTITUTIONAL_VIOLATION;
     Audit.timestamp := now;
     Audit.reason := "authorization_expired";
     Audit.stg_open_id := None;
     Audit.scope := Some s;
     Audit.metadata :=
       Some [("expires_at",
              match State.expires_at st with
              | Some e => Js.MNum e | None => Js.MNull end)] |}.

Definition execution_no_stg_open (now : Js.number) (s : string) : Audit.AuditEvent :=
  {| Audit.type := Audit.CONSTITUTIONAL_VIOLATION;
     Audit.timestamp := now;
     Audit.reason := "no_stg_open";
     Audit.stg_open_id := None;
     Audit.scope := Some s;
     Audit.metadata := None |}.

(** What [runExecution] makes of the outcome of the callback: a returned
    value is handed over after EXECUTION_END; a thrown value is thrown
    again after EXECUTION_ERROR with its message, unless the conversion
    to a string throws, in which case the conversion's error is thrown
    and nothing is appended. *)
Definition conclude_execution {E T} (st : State.STGState) (s : string)
    (r : Js.completion T * World E) : Js.completion T * World E :=
  match r with
  | (Js.Returned v, w2) =>
      (Js.Returned v, logAuditEvent (execution_end st (clock w2) s) w2)
  | (Js.Threw error, w2) =>
      match Js.message_of error with
      | Js.Returned image =>
          (Js.Threw error, logAuditEvent (execution_error (clock w2) s image) w2)
      | Js.Threw conversion_error => (Js.Threw conversion_error, w2)
      end
  end.

(** [runExecution] carries the request out: it logs EXECUTION_START, runs
    the callback on the resulting store, and concludes on the callback's
    outcome. *)
Definition executed {E T} (request : Phase38.ExecutionRequest E T) (w : World E)
    : Prop :=
  let s := Phase38.scope request in
  let w1 := logAuditEvent (execution_start (stg w) (clock w) s) w in
  Phase38.runExecution request w
  = conclude_execution (stg w) s (Phase38.execute request w1).

(** A task whose thrown values all convert to a string. *)
Definition convertible {E T} (task : Task E T) : Prop :=
  forall (w : World E) (e : Js.thrown),
    fst (task w) = Js.Threw e -> e <> Js.Unconvertible.

(** The types of the events two by two: a start and an end per call. *)
Fixpoint start_end_pairs (n : nat) : list Audit.AuditEventType :=
  match n with
  | 0 => []
  | S n => Audit.COGNITION_START :: Audit.COGNITION_END :: start_end_pairs n
  end.

(** A task that returns after some time has passed. *)
Definition slow_task {E T} (v : T) (later : Js.number) : Task E T :=
  fun w => (Js.Returned v, at_time later w).

(** Two attempts inside the demo window, with tasks that take time. *)
Definition open_burst : list (@Spec.Attempt bool string) :=
  [ Spec.mkAttempt 1000%float (slow_task "X" 1200%float) "demo";
    Spec.mkAttempt 1500%float (Spec.throwing (Js.new_Error "boom")) "demo.think" ].

(** Examples for the genesis entry point and the invariant check. *)
Definition demo_auth : Genesis.GenesisCognitionAuthorization :=
  Genesis.mkAuth "w-0" "demo" 3000%float.

Definition stale_auth : Genesis.GenesisCognitionAuthorization :=
  Genesis.mkAuth "w-1" "demo" 500%float.

Definition think_task : Genesis.GenesisTask string :=
  Genesis.mkTask "THINK" None.

Definition demo_open_event : Invariants.STGOpenEvent :=
  Invariants.mkOpenEvent "w-1" "demo" 900%float 2000%float.

Definition demo_params : State.OpenParams :=
  State.mkOpen 900%float 2000%float "demo" "w-1" 0%float.

(** An open window whose scope is null, as [setSTGState] can write it. *)
Definition null_scope_world : World bool :=
  mkWorld
    (State.setSTGState
       (State.mkState State.OPEN (Some 900%float) (Some 2000%float) None
          (Some "w-1") 0%float)
       State.initial)
    Audit.initial 1000%float false.

(** A request for the exact scope of the demo window, carrying the id of
    another window, with a callback that takes time. *)
Definition exact_request : Phase38.ExecutionRequest bool string :=
  Phase38.mkRequest "demo" (slow_task "done" 1200%float) (Some "w-0").

(** The clock as later reads of it see it: a step begun at 1000 that
    enters the gate at 1001, runs its task at 1002 and ends at 1003. *)
Definition demo_readings : Genesis.Readings :=
  Genesis.mkReadings 1001%float 1002%float 1003%float.

(** A window that expires at 1000, looked at when the clock reads 1000. *)
Definition edge_world : World bool :=
  mkWorld
    (State.openSTG (State.mkOpen 900%float 1000%float "demo" "w-1" 0%float)
       State.initial)
    Audit.initial 1000%float false.

Definition analyze_task : Genesis.GenesisTask string :=
  Genesis.mkTask "ANALYZE" (Some "data").

End Behaviour.

(** ** Facts on IEEE comparisons *)

Section FloatOrder.

Lemma SFcompare_swap_Lt (x y : spec_float) :
  SFcompare y x = Some Lt -> SFcompare x y = Some Gt.
Proof.
  destruct x as [sx|sx| |sx mx ex], y as [sy|sy| |sy my ey]; simpl;
    repeat match goal with
           | b : bool |- _ => destruct b
           end; simpl; try congruence.
  all: rewrite (Z.compare_antisym ex ey);
    destruct (ex ?= ey)%Z; simpl; try congruence;
    change (Pos.compare_cont Eq mx my) with (Pos.compare mx my);
    change (Pos.compare_cont Eq my mx) with (Pos.compare my mx);
    rewrite (Pos.compare_antisym mx my);
    destruct (mx ?= my)%positive; simpl; congruence.
Qed.

(** [a <= b] excludes [a > b]. *)
Lemma le_not_gt (a b : Js.number) : Js.le a b = true -> Js.gt a b = false.
Proof.
  unfold Js.le, Js.gt. rewrite FloatAxioms.leb_spec, FloatAxioms.ltb_spec.
  unfold SFleb, SFltb. intros H.
  destruct (SFcompare (Prim2SF b) (Prim2SF a)) as [[]|] eqn:E; try reflexivity.
  apply SFcompare_swap_Lt in E. rewrite E in H. discriminate.
Qed.

(** [a == b] implies [a <= b]. *)
Lemma num_eq_le (a b : Js.number) : Js.num_eq a b = true -> Js.le a b = true.
Proof.
  unfold Js.num_eq, Js.le. rewrite FloatAxioms.eqb_spec, FloatAxioms.leb_spec.
  unfold SFeqb, SFleb.
  destruct (SFcompare (Prim2SF a) (Prim2SF b)) as [[]|]; congruence.
Qed.

End FloatOrder.

(** ** The evaluator and the policy constructor *)

Section CoreFacts.
Import Core.

Lemma first_match_head (c : bool) (r : GateResult) rest otherwise :
  first_match ((c, r) :: rest) otherwise
  = if c then r else first_match rest otherwise.
Proof. reflexivity. Qed.

(** C3: [evaluateGate] returns the result of the first rule that matches,
    in the order cooldown_active, unauthorized_intent,
    insufficient_resources, low_prediction_error, low_novelty, and
    OPEN/thresholds_satisfied when none does.  So an active cooldown wins
    over an unauthorized intent, and a signal equal to its threshold is
    denied. *)
Theorem evaluateGate_first_matching_rule :
  forall (signals : STGSignals) (policy : STGPolicy)
         (now cooldown_until : Js.number),
    evaluateGate signals policy now cooldown_until
    = first_match (spec_rules signals policy now cooldown_until)
        (mkResult OPEN "thresholds_satisfied")
    /\ (Js.lt now cooldown_until = true ->
        evaluateGate signals policy now cooldown_until
        = mkResult DENY "cooldown_active")
    /\ (Js.lt now cooldown_until = false ->
        intent_authorized signals = true ->
        resources_ok signals = true ->
        Js.num_eq (prediction_error signals) (epsilon_prediction_error policy) = true ->
        evaluateGate signals policy now cooldown_until
        = mkResult DENY "low_prediction_error")
    /\ (Js.lt now cooldown_until = false ->
        intent_authorized signals = true ->
        resources_ok signals = true ->
        Js.le (prediction_error signals) (epsilon_prediction_error policy) = false ->
        Js.num_eq (novelty_delta signals) (delta_novelty policy) = true ->
        evaluateGate signals policy now cooldown_until
        = mkResult DENY "low_novelty").
Proof.
  intros signals policy now cooldown_until.
  split; [| split; [| split]].
  - unfold evaluateGate, spec_rules.
    repeat rewrite first_match_head.
    repeat match goal with |- context [if ?c then _ else _] =>
      destruct c eqn:?; try reflexivity end.
  - intros Hcool. unfold evaluateGate. now rewrite Hcool.
  - intros Hcool Hintent Hres Heq. unfold evaluateGate.
    rewrite Hcool, Hintent, Hres. simpl.
    now rewrite (num_eq_le _ _ Heq).
  - intros Hcool Hintent Hres Hpe Heq. unfold evaluateGate.
    rewrite Hcool, Hintent, Hres, Hpe. simpl.
    now rewrite (num_eq_le _ _ Heq).
Qed.

(** The evaluator on concrete signals: the threshold itself is denied,
    just above it the gate opens. *)
Example evaluateGate_at_threshold :
  evaluateGate (mkSignals 0.5%float 0.875%float true true "demo")
    {| epsilon_prediction_error := 0.5%float; delta_novelty := 0.25%float;
       max_cognitive_duration_ms := 1000%float; max_compute_budget := 100%float;
       cooldown_duration_ms := 5000%float; allowed_scopes := {[ "demo" ]};
       policy_hash := "h" |} 10%float 0%float
  = mkResult DENY "low_prediction_error".
Proof. reflexivity. Qed.

Example evaluateGate_above_threshold :
  evaluateGate (mkSignals 0.75%float 0.875%float true true "demo")
    {| epsilon_prediction_error := 0.5%float; delta_novelty := 0.25%float;
       max_cognitive_duration_ms := 1000%float; max_compute_budget := 100%float;
       cooldown_duration_ms := 5000%float; allowed_scopes := {[ "demo" ]};
       policy_hash := "h" |} 10%float 0%float
  = mkResult OPEN "thresholds_satisfied".
Proof. reflexivity. Qed.

(** C4, as the code has it: [createSTGPolicy] validates nothing.  For
    every input it returns a policy that copies the numeric fields and
    the hash and holds exactly the given scopes, and it never throws. *)
Theorem createSTGPolicy_total :
  forall params : PolicyParams,
    exists policy : STGPolicy,
      createSTGPolicy params = Js.Returned policy
      /\ epsilon_prediction_error policy = p_epsilon_prediction_error params
      /\ delta_novelty policy = p_delta_novelty params
      /\ max_cognitive_duration_ms policy = p_max_cognitive_duration_ms params
      /\ max_compute_budget policy = p_max_compute_budget params
      /\ cooldown_duration_ms policy = p_cooldown_duration_ms params
      /\ policy_hash policy = p_policy_hash params
      /\ (forall s : string,
            s ∈ allowed_scopes policy <-> s ∈ p_allowed_scopes params).
Proof.
  intros params. eexists. split; [reflexivity|].
  repeat split; simpl; intros H.
  - now apply elem_of_list_to_set in H.
  - now apply elem_of_list_to_set.
Qed.

(** C4, as stated, fails: parameters with a negative threshold, with no
    scope, and with a negative cooldown are each accepted. *)
Lemma createSTGPolicy_accepts_invalid :
  spec_invalid_params Spec.negative_threshold_params = true
  /\ Js.is_returned (createSTGPolicy Spec.negative_threshold_params) = true
  /\ spec_invalid_params Spec.no_scope_params = true
  /\ Js.is_returned (createSTGPolicy Spec.no_scope_params) = true
  /\ spec_invalid_params Spec.negative_cooldown_params = true
  /\ Js.is_returned (createSTGPolicy Spec.negative_cooldown_params) = true.
Proof. repeat split; reflexivity. Qed.

Example createSTGPolicy_good :
  spec_invalid_params Spec.good_params = false
  /\ Js.is_returned (createSTGPolicy Spec.good_params) = true.
Proof. split; reflexivity. Qed.

End CoreFacts.

(** ** Window state *)

Section StateFacts.
Import State.

(** C9: [closeSTG] yields a CLOSED state whose scope, window id and
    expiry are null and whose cooldown is the prior one, whatever the
    prior state and the time. *)
Theorem closeSTG_nulls_window_keeps_cooldown :
  forall (now : Js.number) (prior : STGState),
    state (closeSTG now prior) = CLOSED
    /\ scope (closeSTG now prior) = None
    /\ stg_open_id (closeSTG now prior) = None
    /\ expires_at (closeSTG now prior) = None
    /\ cooldown_until (closeSTG now prior) = cooldown_until prior.
Proof.
  intros now prior. unfold closeSTG; simpl.
  repeat split. now destruct (Js.gt (cooldown_until prior) now).
Qed.

(** The rest of the record: the time of the last opening is kept too. *)
Lemma closeSTG_last_open_time (now : Js.number) (prior : STGState) :
  last_open_time (closeSTG now prior) = last_open_time prior.
Proof. reflexivity. Qed.

(** Closing a window whose cooldown lies in the future, and one whose
    cooldown has passed. *)
Example closeSTG_demo :
  closeSTG 1500%float (mkState OPEN (Some 900%float) (Some 2000%float)
                         (Some "demo") (Some "w-1") 7000%float)
  = mkState CLOSED (Some 900%float) None None None 7000%float
  /\ closeSTG 9000%float (mkState OPEN (Some 900%float) (Some 2000%float)
                            (Some "demo") (Some "w-1") 7000%float)
     = mkState CLOSED (Some 900%float) None None None 7000%float.
Proof. split; reflexivity. Qed.

End StateFacts.

(** ** Audit log *)

Section AuditFacts.
Import Audit.

Lemma elements_insert (r : ref) (l : list AuditEvent) (m : gmap ref (list AuditEvent))
    (k : ref) :
  elements r {| _log := k; arrays := <[ r := l ]> m |} = l.
Proof. unfold elements; simpl. now rewrite lookup_insert_eq. Qed.

(** An append adds the event at the end of the log. *)
Lemma contents_logAuditEvent (event : AuditEvent) (s : Store) :
  contents (logAuditEvent event s) = (contents s ++ [event])%list.
Proof.
  unfold contents, getAuditLog, logAuditEvent; simpl.
  apply elements_insert.
Qed.

Lemma contents_initial : contents initial = [].
Proof. reflexivity. Qed.

Lemma contents_clearAuditLog (s : Store) : contents (clearAuditLog s) = [].
Proof. unfold contents, getAuditLog, clearAuditLog; simpl. apply elements_insert. Qed.

(** Reading the log after a sequence of appends gives the events in
    insertion order. *)
Lemma contents_appends (events : list AuditEvent) (s : Store) :
  contents (foldl (fun st e => logAuditEvent e st) s events)
  = (contents s ++ events)%list.
Proof.
  revert s. induction events as [|e events IH]; intros s; simpl.
  - now rewrite app_nil_r.
  - rewrite IH, contents_logAuditEvent, <- app_assoc. reflexivity.
Qed.

(** C5 fails on the code: [getAuditLog] returns the backing array
    itself, so every in-place update made through the returned
    reference is what the next [getAuditLog] reads.  In particular
    after one append, setting [length = 0] on the returned array
    empties the log. *)
Theorem getAuditLog_exposes_backing_array :
  (forall (s : Store) (f : list AuditEvent -> list AuditEvent),
      contents (mutate (getAuditLog s) f s) = f (contents s))
  /\ contents (logAuditEvent Spec.sample_event initial) = [Spec.sample_event]
  /\ contents (mutate (getAuditLog (logAuditEvent Spec.sample_event initial))
                 (fun _ => [])
                 (logAuditEvent Spec.sample_event initial)) = [].
Proof.
  split; [| split].
  - intros s f. unfold contents, getAuditLog, mutate; simpl.
    apply elements_insert.
  - reflexivity.
  - reflexivity.
Qed.

End AuditFacts.

(** ** Strings and scopes *)

Section ScopeFacts.

(** [s.startsWith(p)] holds exactly when [s] is [p] followed by
    something. *)
Lemma startsWith_spec (s p : string) :
  Js.startsWith s p = true <-> exists rest, s = p ++ rest.
Proof.
  unfold Js.startsWith. revert s.
  induction p as [|c p IH]; intros s; simpl.
  - split; [intros _; now exists s | intros _; now destruct s].
  - destruct s as [|d s]; simpl.
    + split; [discriminate | intros [rest H]; discriminate].
    + destruct (Ascii.ascii_dec c d) as [->|Hne].
      * rewrite IH. split; intros [rest H]; exists rest.
        -- now rewrite H.
        -- now inversion H.
      * split; [discriminate | intros [rest H]; inversion H; congruence].
Qed.

(** No string starts with itself followed by a dot. *)
Lemma not_startsWith_self_dot (a : string) :
  Js.startsWith a (a ++ ".") = false.
Proof.
  unfold Js.startsWith.
  induction a as [|c a IH]; simpl; [reflexivity|].
  destruct (Ascii.ascii_dec c c); [exact IH | contradiction].
Qed.

Lemma str_eq_true (s t : string) : Js.str_eq s t = true <-> s = t.
Proof. apply String.eqb_eq. Qed.

(** [isScopeAuthorized] against a non-null scope is the rule of the
    specification. *)
Lemma isScopeAuthorized_spec (s a : string) :
  Gate.isScopeAuthorized s (Some a) = true <-> Spec.scope_within s a.
Proof.
  unfold Gate.isScopeAuthorized, Spec.scope_within.
  rewrite orb_true_iff, str_eq_true. reflexivity.
Qed.

Lemma isScopeAuthorized_false (s a : string) :
  Gate.isScopeAuthorized s (Some a) = false <-> ~ Spec.scope_within s a.
Proof.
  rewrite <- isScopeAuthorized_spec, not_true_iff_false. reflexivity.
Qed.

Lemma is_open_true (st : State.STGState) :
  Spec.is_open st = true <-> State.state st = State.OPEN.
Proof.
  unfold Spec.is_open. destruct (State.state st); simpl; split; congruence.
Qed.

Lemma is_open_false (st : State.STGState) :
  Spec.is_open st = false <-> State.state st <> State.OPEN.
Proof.
  unfold Spec.is_open. destruct (State.state st); simpl; split; congruence.
Qed.

Example scope_examples :
  Gate.isScopeAuthorized "demo" (Some "demo") = true
  /\ Gate.isScopeAuthorized "demo.think" (Some "demo") = true
  /\ Gate.isScopeAuthorized "demolition" (Some "demo") = false
  /\ Gate.isScopeAuthorized "dem" (Some "demo") = false
  /\ Gate.isScopeAuthorized "demo" None = false.
Proof. repeat split; reflexivity. Qed.

End ScopeFacts.

(** ** The gate, check by check *)

Section GateSteps.
Import Proc Spec.
Context {E T : Type}.
Implicit Types (task : Task E T) (s : string) (w : World E).

Lemma log_logAuditEvent (event : Audit.AuditEvent) w :
  log (logAuditEvent event w) = (log w ++ [event])%list.
Proof. unfold log, logAuditEvent; simpl. apply contents_logAuditEvent. Qed.

(** Two stores that result from an append agree on the event appended. *)
Lemma logAuditEvent_inj_event (e1 e2 : Audit.AuditEvent) (w1 w2 : World E) :
  logAuditEvent e1 w1 = logAuditEvent e2 w2 -> e1 = e2.
Proof.
  intros H. apply (f_equal log) in H.
  rewrite !log_logAuditEvent in H.
  now apply app_inj_tail in H.
Qed.

(** Check 1 fails: the window is not open. *)
Lemma gate_not_open task s w :
  is_open (stg w) = false ->
  Gate.runCognitiveCycle task s w
  = (Js.Threw (Js.new_Error
       "CONSTITUTIONAL_VIOLATION: Cognition attempted without STG_OPEN"),
     logAuditEvent (violation_no_stg_open (stg w) (clock w) s) w).
Proof.
  unfold is_open. intros H.
  unfold Gate.runCognitiveCycle, getSTGState, State.getSTGState, Date_now.
  now rewrite H.
Qed.

(** Check 2 fails: the window has expired. *)
Lemma gate_expired task s w :
  is_open (stg w) = true ->
  Gate.expired (clock w) (stg w) = true ->
  Gate.runCognitiveCycle task s w
  = (Js.Threw (Js.new_Error "CONSTITUTIONAL_VIOLATION: STG_OPEN has expired"),
     logAuditEvent (violation_stg_expired (stg w) (clock w) s) w).
Proof.
  unfold is_open. intros Ho He.
  unfold Gate.runCognitiveCycle, getSTGState, State.getSTGState, Date_now.
  now rewrite Ho, He.
Qed.

(** Check 3 fails: the scope is not authorized. *)
Lemma gate_scope task s w :
  is_open (stg w) = true ->
  Gate.expired (clock w) (stg w) = false ->
  Gate.isScopeAuthorized s (State.scope (stg w)) = false ->
  Gate.runCognitiveCycle task s w
  = (Js.Threw (Js.new_Error
       ("CONSTITUTIONAL_VIOLATION: Scope '" ++ s
        ++ "' not authorized (authorized: '"
        ++ Gate.show_scope (State.scope (stg w)) ++ "')")),
     logAuditEvent (violation_unauthorized_cognition (stg w) (clock w) s) w).
Proof.
  unfold is_open. intros Ho He Hs.
  unfold Gate.runCognitiveCycle, getSTGState, State.getSTGState, Date_now.
  now rewrite Ho, He, Hs.
Qed.

(** All three checks pass: the task runs. *)
Lemma gate_passes task s w :
  is_open (stg w) = true ->
  Gate.expired (clock w) (stg w) = false ->
  Gate.isScopeAuthorized s (State.scope (stg w)) = true ->
  admitted task s w.
Proof.
  unfold is_open, admitted. intros Ho He Hs.
  unfold Gate.runCognitiveCycle, getSTGState, State.getSTGState, Date_now.
  rewrite Ho, He, Hs. cbn [negb].
  fold (cognition_start (stg w) (clock w) s).
  destruct (task _) as [[v|e] w2]; reflexivity.
Qed.

(** An unauthorized call, whichever check fails: the violation logged
    and the error thrown do not depend on the task. *)
Lemma gate_denies task s w :
  unauthorized (stg w) (clock w) s = true ->
  Gate.runCognitiveCycle task s w
  = (Js.Threw (Js.new_Error (denial_message (stg w) (clock w) s)),
     logAuditEvent (violation_of (stg w) (clock w) s) w).
Proof.
  unfold unauthorized, denial_message, violation_of. intros H.
  destruct (is_open (stg w)) eqn:Ho; cbn [negb orb] in *.
  - destruct (Gate.expired (clock w) (stg w)) eqn:He; cbn [orb] in *.
    + now apply gate_expired.
    + apply gate_scope; trivial. now apply negb_true_iff.
  - now apply gate_not_open.
Qed.

Lemma denial_message_tagged (st : State.STGState) (now : Js.number) s :
  is_GateViolation (Js.new_Error (denial_message st now s)) = true.
Proof.
  unfold denial_message.
  destruct (negb (is_open st)); [reflexivity|].
  destruct (Gate.expired now st); reflexivity.
Qed.

Lemma violation_of_type (st : State.STGState) (now : Js.number) s :
  Audit.type (violation_of st now s) = Audit.CONSTITUTIONAL_VIOLATION.
Proof.
  unfold violation_of.
  destruct (negb (is_open st)); [reflexivity|].
  destruct (Gate.expired now st); reflexivity.
Qed.

(** The conversion of a thrown value, when it throws, throws the
    TypeError. *)
Lemma String_of_throws (e conversion_error : Js.thrown) :
  Js.String_of e = Js.Threw conversion_error ->
  e = Js.Unconvertible /\ conversion_error = Js.conversion_TypeError.
Proof. destruct e; simpl; intros H; inversion H; auto. Qed.

(** The gate's conclusion on an outcome of the task, case by case. *)
Lemma conclude_returned (st : State.STGState) s (v : T) (w2 : World E) :
  conclude st s (Js.Returned v, w2)
  = (Js.Returned v, logAuditEvent (cognition_completed st (clock w2) s) w2).
Proof. reflexivity. Qed.

Lemma conclude_threw (st : State.STGState) s (e : Js.thrown) (image : string)
    (w2 : World E) :
  Js.String_of e = Js.Returned image ->
  conclude (T := T) st s (Js.Threw e, w2)
  = (Js.Threw e, logAuditEvent (cognition_failed st (clock w2) s image) w2).
Proof. intros H. cbn [conclude]. now rewrite H. Qed.

Lemma conclude_unconvertible (st : State.STGState) s (w2 : World E) :
  conclude (T := T) st s (Js.Threw Js.Unconvertible, w2)
  = (Js.Threw Js.conversion_TypeError, w2).
Proof. reflexivity. Qed.

(** An admitted call is not a denied one: it returns, or it ends on a
    COGNITION_END, or it throws the TypeError of a conversion. *)
Lemma admitted_not_denied task s w (event : Audit.AuditEvent) (m : string) :
  Audit.type event = Audit.CONSTITUTIONAL_VIOLATION ->
  Gate.runCognitiveCycle task s w
  = (Js.Threw (Js.new_Error m), logAuditEvent event w) ->
  ~ admitted task s w.
Proof.
  intros Hty Hrun Hadm. unfold admitted in Hadm. cbv zeta in Hadm.
  rewrite Hrun in Hadm.
  destruct (task _) as [[v | e] w2]; [discriminate |].
  destruct (Js.String_of e) as [image | ce] eqn:Hconv.
  - rewrite (conclude_threw _ _ _ _ _ Hconv) in Hadm.
    pose proof (f_equal snd Hadm) as Hw. cbn [snd] in Hw.
    apply logAuditEvent_inj_event in Hw. rewrite Hw in Hty. discriminate.
  - apply String_of_throws in Hconv as [-> _].
    rewrite conclude_unconvertible in Hadm. discriminate.
Qed.

End GateSteps.

(** ** The enforcement entry point *)

Section GateClaims.
Import Proc Spec.
Context {E T : Type}.
Implicit Types (task : Task E T) (s a : string) (w : World E).

(** C1: under an open, unexpired window authorizing scope [a], the gate
    lets a call for scope [s] through exactly when [s] is [a] or starts
    with [a + "."]; for every other [s] it appends a
    CONSTITUTIONAL_VIOLATION with reason unauthorized_cognition and throws
    a GateViolation, the task not being invoked.  For a task that
    returns, the call returns exactly in the first case. *)
Theorem runCognitiveCycle_scope_rule :
  forall task s a w,
    State.state (stg w) = State.OPEN ->
    Gate.expired (clock w) (stg w) = false ->
    State.scope (stg w) = Some a ->
    (admitted task s w <-> scope_within s a)
    /\ (~ scope_within s a ->
        Gate.runCognitiveCycle task s w
        = (Js.Threw (Js.new_Error
             ("CONSTITUTIONAL_VIOLATION: Scope '" ++ s
              ++ "' not authorized (authorized: '" ++ a ++ "')")),
           logAuditEvent (violation_unauthorized_cognition (stg w) (clock w) s) w)
        /\ threw_GateViolation (fst (Gate.runCognitiveCycle task s w)) = true
        /\ log (snd (Gate.runCognitiveCycle task s w))
           = (log w ++ [violation_unauthorized_cognition (stg w) (clock w) s])%list
        /\ ext (snd (Gate.runCognitiveCycle task s w)) = ext w)
    /\ (Js.is_returned
          (fst (task (logAuditEvent (cognition_start (stg w) (clock w) s) w))) = true ->
        (Js.is_returned (fst (Gate.runCognitiveCycle task s w)) = true
         <-> scope_within s a)).
Proof.
  intros task s a w Hopen Hexp Hscope.
  apply is_open_true in Hopen.
  assert (Hdeny : ~ scope_within s a ->
    Gate.runCognitiveCycle task s w
    = (Js.Threw (Js.new_Error
         ("CONSTITUTIONAL_VIOLATION: Scope '" ++ s
          ++ "' not authorized (authorized: '" ++ a ++ "')")),
       logAuditEvent (violation_unauthorized_cognition (stg w) (clock w) s) w)).
  { intros Hout. apply isScopeAuthorized_false in Hout.
    rewrite <- Hscope in Hout.
    rewrite (gate_scope task s w Hopen Hexp Hout), Hscope. reflexivity. }
  assert (Hpass : scope_within s a -> admitted task s w).
  { intros Hin. apply isScopeAuthorized_spec in Hin.
    rewrite <- Hscope in Hin. now apply gate_passes. }
  split; [| split].
  - split; [| exact Hpass].
    intros Hadm.
    destruct (Gate.isScopeAuthorized s (Some a)) eqn:Hauth.
    + now apply isScopeAuthorized_spec.
    + apply isScopeAuthorized_false in Hauth.
      exfalso. revert Hadm.
      eapply admitted_not_denied; [| exact (Hdeny Hauth)]. reflexivity.
  - intros Hout. rewrite (Hdeny Hout). cbn [fst snd].
    split; [reflexivity |].
    split; [reflexivity |].
    split; [apply log_logAuditEvent | reflexivity].
  - intros Hret. split.
    + intros Hcall.
      destruct (Gate.isScopeAuthorized s (Some a)) eqn:Hauth.
      * now apply isScopeAuthorized_spec.
      * apply isScopeAuthorized_false in Hauth.
        rewrite (Hdeny Hauth) in Hcall. discriminate.
    + intros Hin. pose proof (Hpass Hin) as Hadm.
      unfold admitted in Hadm. cbv zeta in Hadm.
      rewrite Hadm. revert Hret.
      destruct (task _) as [[v | e] w2]; [reflexivity | discriminate].
Qed.

(** C2: when the window is not open, every call appends a
    CONSTITUTIONAL_VIOLATION with reason no_stg_open and throws a
    GateViolation; the outcome is the same for every task, and nothing a
    task could touch has changed. *)
Theorem runCognitiveCycle_window_closed :
  forall task s w,
    State.state (stg w) <> State.OPEN ->
    Gate.runCognitiveCycle task s w
    = (Js.Threw (Js.new_Error
         "CONSTITUTIONAL_VIOLATION: Cognition attempted without STG_OPEN"),
       logAuditEvent (violation_no_stg_open (stg w) (clock w) s) w)
    /\ threw_GateViolation (fst (Gate.runCognitiveCycle task s w)) = true
    /\ log (snd (Gate.runCognitiveCycle task s w))
       = (log w ++ [violation_no_stg_open (stg w) (clock w) s])%list
    /\ ext (snd (Gate.runCognitiveCycle task s w)) = ext w
    /\ stg (snd (Gate.runCognitiveCycle task s w)) = stg w
    /\ (forall other : Task E T,
          Gate.runCognitiveCycle other s w = Gate.runCognitiveCycle task s w).
Proof.
  intros task s w Hclosed. apply is_open_false in Hclosed.
  rewrite (gate_not_open task s w Hclosed). cbn [fst snd].
  split; [reflexivity |].
  split; [reflexivity |].
  split; [apply log_logAuditEvent |].
  split; [reflexivity |].
  split; [reflexivity |].
  intros other. apply gate_not_open, Hclosed.
Qed.

(** C6: under an open window and an authorized scope, a call at a time
    [now <= expires_at] is let through, a call at [now > expires_at]
    appends a CONSTITUTIONAL_VIOLATION with reason stg_expired and throws
    a GateViolation without invoking the task, and with a null
    [expires_at] the call is let through at any time. *)
Theorem runCognitiveCycle_expiry_boundary :
  forall task s w,
    State.state (stg w) = State.OPEN ->
    Gate.isScopeAuthorized s (State.scope (stg w)) = true ->
    (forall e : Js.number,
        State.expires_at (stg w) = Some e ->
        Js.le (clock w) e = true ->
        admitted task s w)
    /\ (forall e : Js.number,
        State.expires_at (stg w) = Some e ->
        Js.gt (clock w) e = true ->
        Gate.runCognitiveCycle task s w
        = (Js.Threw (Js.new_Error "CONSTITUTIONAL_VIOLATION: STG_OPEN has expired"),
           logAuditEvent (violation_stg_expired (stg w) (clock w) s) w)
        /\ threw_GateViolation (fst (Gate.runCognitiveCycle task s w)) = true
        /\ log (snd (Gate.runCognitiveCycle task s w))
           = (log w ++ [violation_stg_expired (stg w) (clock w) s])%list
        /\ ext (snd (Gate.runCognitiveCycle task s w)) = ext w)
    /\ (State.expires_at (stg w) = None ->
        Gate.expired (clock w) (stg w) = false /\ admitted task s w).
Proof.
  intros task s w Hopen Hauth. apply is_open_true in Hopen.
  split; [| split].
  - intros e He Hle. apply gate_passes; trivial.
    unfold Gate.expired. rewrite He. now apply le_not_gt.
  - intros e He Hgt.
    assert (Hexp : Gate.expired (clock w) (stg w) = true)
      by (unfold Gate.expired; now rewrite He).
    rewrite (gate_expired task s w Hopen Hexp). cbn [fst snd].
    split; [reflexivity |].
    split; [reflexivity |].
    split; [apply log_logAuditEvent | reflexivity].
  - intros Hnull.
    assert (Hexp : Gate.expired (clock w) (stg w) = false)
      by (unfold Gate.expired; now rewrite Hnull).
    split; [exact Hexp | now apply gate_passes].
Qed.

(** C8 holds for the values the gate can convert and fails for the
    others.  Once the three checks pass, a task that returns [v] makes
    the gate append COGNITION_END with reason completed and return that
    same [v]; a task that throws an [e] whose [String(e)] is [image]
    makes it append COGNITION_END with reason failed and [image] in the
    metadata and throw that same [e].  But the gate converts before it
    logs and before it throws: when the task throws a value whose
    conversion throws, the gate appends no COGNITION_END at all and
    throws the TypeError of the conversion in place of the task's
    value. *)
Theorem runCognitiveCycle_task_outcome :
  forall task s w,
    unauthorized (stg w) (clock w) s = false ->
    (forall (v : T) (w2 : World E),
        task (logAuditEvent (cognition_start (stg w) (clock w) s) w) = (Js.Returned v, w2) ->
        Gate.runCognitiveCycle task s w
        = (Js.Returned v, logAuditEvent (cognition_completed (stg w) (clock w2) s) w2)
        /\ log (snd (Gate.runCognitiveCycle task s w))
           = (log w2 ++ [cognition_completed (stg w) (clock w2) s])%list)
    /\ (forall (e : Js.thrown) (image : string) (w2 : World E),
          task (logAuditEvent (cognition_start (stg w) (clock w) s) w) = (Js.Threw e, w2) ->
          Js.String_of e = Js.Returned image ->
          Gate.runCognitiveCycle task s w
          = (Js.Threw e, logAuditEvent (cognition_failed (stg w) (clock w2) s image) w2)
          /\ log (snd (Gate.runCognitiveCycle task s w))
             = (log w2 ++ [cognition_failed (stg w) (clock w2) s image])%list)
    /\ (forall w2 : World E,
          task (logAuditEvent (cognition_start (stg w) (clock w) s) w)
          = (Js.Threw Js.Unconvertible, w2) ->
          Gate.runCognitiveCycle task s w = (Js.Threw Js.conversion_TypeError, w2)
          /\ fst (Gate.runCognitiveCycle task s w) <> Js.Threw Js.Unconvertible
          /\ log (snd (Gate.runCognitiveCycle task s w)) = log w2).
Proof.
  intros task s w Hok.
  unfold unauthorized in Hok.
  apply orb_false_iff in Hok as [Hok Hauth].
  apply orb_false_iff in Hok as [Hopen Hexp].
  apply negb_false_iff in Hopen, Hauth.
  pose proof (gate_passes task s w Hopen Hexp Hauth) as Hadm.
  unfold admitted in Hadm. cbv zeta in Hadm.
  split; [| split].
  - intros v w2 Htask. rewrite Htask, conclude_returned in Hadm.
    rewrite Hadm. cbn [fst snd]. split; [reflexivity | apply log_logAuditEvent].
  - intros e image w2 Htask Hconv.
    rewrite Htask, (conclude_threw _ _ _ _ _ Hconv) in Hadm.
    rewrite Hadm. cbn [fst snd]. split; [reflexivity | apply log_logAuditEvent].
  - intros w2 Htask. rewrite Htask, conclude_unconvertible in Hadm.
    rewrite Hadm. cbn [fst snd].
    split; [reflexivity |]. split; [discriminate | reflexivity].
Qed.

End GateClaims.

(** ** Bursts of denied calls *)

Section BurstClaims.
Import Proc Spec.
Context {E T : Type}.
Implicit Types (w : World E) (attempts : list (@Attempt E T)).

Lemma count_type_app (t : Audit.AuditEventType) (l1 l2 : list Audit.AuditEvent) :
  Audit.count_type t (l1 ++ l2) = Audit.count_type t l1 + Audit.count_type t l2.
Proof. unfold Audit.count_type. now rewrite filter_app, length_app. Qed.

Lemma count_type_all (t : Audit.AuditEventType) (l : list Audit.AuditEvent) :
  Forall (fun e => Audit.type e = t) l -> Audit.count_type t l = length l.
Proof.
  unfold Audit.count_type.
  induction 1 as [|e l He _ IH]; [reflexivity|].
  rewrite filter_cons_True; [simpl; now rewrite IH|].
  rewrite He. now destruct t.
Qed.

(** One denied attempt: the step a burst takes. *)
Lemma burst_cons (x : @Attempt E T) attempts w :
  burst (x :: attempts) w
  = (fst (Gate.runCognitiveCycle (a_task x) (a_scope x) (at_time (a_now x) w))
       :: fst (burst attempts
                 (snd (Gate.runCognitiveCycle (a_task x) (a_scope x)
                         (at_time (a_now x) w)))),
     snd (burst attempts
            (snd (Gate.runCognitiveCycle (a_task x) (a_scope x)
                    (at_time (a_now x) w))))).
Proof.
  cbn [burst].
  destruct (Gate.runCognitiveCycle _ _ _) as [c w1]. cbn [fst snd].
  destruct (burst attempts w1) as [cs w2]. reflexivity.
Qed.

(** A burst of denied attempts, in closed form. *)
Lemma burst_denied (st : State.STGState) attempts :
  forall w,
    stg w = st ->
    Forall (fun x => unauthorized st (a_now x) (a_scope x) = true) attempts ->
    fst (burst attempts w)
    = map (fun x => Js.Threw (Js.new_Error (denial_message st (a_now x) (a_scope x))))
        attempts
    /\ stg (snd (burst attempts w)) = st
    /\ ext (snd (burst attempts w)) = ext w
    /\ log (snd (burst attempts w))
       = (log w ++ map (fun x => violation_of st (a_now x) (a_scope x)) attempts)%list.
Proof.
  induction attempts as [|x attempts IH]; intros w Hst Hall.
  - simpl. now rewrite app_nil_r.
  - inversion Hall as [|? ? Hx Hrest]; subst.
    rewrite burst_cons.
    rewrite (gate_denies (a_task x) (a_scope x) (at_time (a_now x) w) Hx).
    cbn [fst snd].
    destruct (IH (logAuditEvent
                    (violation_of (stg (at_time (a_now x) w))
                       (clock (at_time (a_now x) w)) (a_scope x))
                    (at_time (a_now x) w)) eq_refl Hrest)
      as (Hout & Hstg & Hext & Hlog).
    rewrite Hout, Hstg, Hext, Hlog, log_logAuditEvent.
    cbn [map stg ext clock at_time].
    rewrite <- app_assoc. repeat split.
Qed.

(** The tasks of a burst of denied attempts play no part in it. *)
Lemma burst_denied_any_task (st : State.STGState) (t : Task E T) attempts :
  forall w,
    stg w = st ->
    Forall (fun x => unauthorized st (a_now x) (a_scope x) = true) attempts ->
    burst (map (with_task t) attempts) w = burst attempts w.
Proof.
  induction attempts as [|x attempts IH]; intros w Hst Hall; [reflexivity|].
  inversion Hall as [|? ? Hx Hrest]; subst.
  cbn [map]. rewrite !burst_cons. cbn [with_task a_now a_task a_scope].
  rewrite (gate_denies t (a_scope x) (at_time (a_now x) w) Hx).
  rewrite (gate_denies (a_task x) (a_scope x) (at_time (a_now x) w) Hx).
  cbn [fst snd]. rewrite IH; trivial.
Qed.

(** C7: a burst of N calls that are unauthorized under the window state
    appends exactly N CONSTITUTIONAL_VIOLATION events, one per call and
    nothing else, makes every call throw a GateViolation, runs no task
    (the outcome is the same whatever the tasks are, and nothing a task
    could touch has changed), and leaves the window state as it was. *)
Theorem burst_of_denied_calls :
  forall attempts w,
    Forall (fun x => unauthorized (stg w) (a_now x) (a_scope x) = true) attempts ->
    log (snd (burst attempts w))
    = (log w ++ map (fun x => violation_of (stg w) (a_now x) (a_scope x)) attempts)%list
    /\ Audit.count_type Audit.CONSTITUTIONAL_VIOLATION (log (snd (burst attempts w)))
       = Audit.count_type Audit.CONSTITUTIONAL_VIOLATION (log w) + length attempts
    /\ length (log (snd (burst attempts w))) = length (log w) + length attempts
    /\ length (fst (burst attempts w)) = length attempts
    /\ Forall (fun c => threw_GateViolation c = true) (fst (burst attempts w))
    /\ stg (snd (burst attempts w)) = stg w
    /\ ext (snd (burst attempts w)) = ext w
    /\ (forall t : Task E T,
          burst (map (with_task t) attempts) w = burst attempts w).
Proof.
  intros attempts w Hall.
  destruct (burst_denied (stg w) attempts w eq_refl Hall)
    as (Hout & Hstg & Hext & Hlog).
  rewrite Hlog, Hout.
  split; [reflexivity |].
  split.
  { rewrite count_type_app. f_equal.
    rewrite count_type_all; [apply length_map |].
    apply Forall_map, Forall_forall. intros x _. apply violation_of_type. }
  split; [now rewrite length_app, length_map |].
  split; [apply length_map |].
  split.
  { apply Forall_map, Forall_forall. intros x _.
    apply (denial_message_tagged (stg w) (a_now x) (a_scope x)). }
  split; [exact Hstg |].
  split; [exact Hext |].
  intros t. now apply (burst_denied_any_task (stg w)).
Qed.

End BurstClaims.

(** ** The execution entry point *)

Section ExecutionClaims.
Import Proc Spec.
Context {E T : Type}.

(** C10: [runExecution] compares the requested scope with [state.scope]
    for equality only.  Under an open, unexpired window over scope [a],
    a request for a scope that starts with [a + "."] is not [a]; the
    call appends a CONSTITUTIONAL_VIOLATION with reason
    unauthorized_execution and throws, the callback not being invoked,
    whereas [runCognitiveCycle] lets the same scope through. *)
Theorem runExecution_rejects_descendant_scope :
  forall (request : Phase38.ExecutionRequest E T) (a : string) (w : World E),
    State.state (stg w) = State.OPEN ->
    Gate.expired (clock w) (stg w) = false ->
    State.scope (stg w) = Some a ->
    Js.startsWith (Phase38.scope request) (a ++ ".") = true ->
    Phase38.scope request <> a
    /\ Phase38.runExecution request w
       = (Js.Threw (Js.new_Error
            ("CONSTITUTIONAL_VIOLATION: Execution scope '" ++ Phase38.scope request
             ++ "' not authorized (authorized: '" ++ a ++ "')")),
          logAuditEvent
            (violation_unauthorized_execution (stg w) (clock w) (Phase38.scope request))
            w)
    /\ log (snd (Phase38.runExecution request w))
       = (log w ++ [violation_unauthorized_execution (stg w) (clock w)
                      (Phase38.scope request)])%list
    /\ ext (snd (Phase38.runExecution request w)) = ext w
    /\ (forall other : Task E T,
          Phase38.runExecution
            (Phase38.mkRequest (Phase38.scope request) other
               (Phase38.stg_open_id request)) w
          = Phase38.runExecution request w)
    /\ admitted (Phase38.execute request) (Phase38.scope request) w.
Proof.
  intros request a w Hopen Hexp Hscope Hpre.
  assert (Hne : Phase38.scope request <> a).
  { intros Heq. rewrite Heq, not_startsWith_self_dot in Hpre. discriminate. }
  assert (Hdiff : Phase38.scope_differs (State.scope (stg w)) (Phase38.scope request) = true).
  { rewrite Hscope. unfold Phase38.scope_differs.
    apply negb_true_iff, not_true_iff_false.
    rewrite str_eq_true. congruence. }
  apply is_open_true in Hopen. unfold is_open in Hopen.
  assert (Hrun : forall t : Task E T,
    Phase38.runExecution
      (Phase38.mkRequest (Phase38.scope request) t (Phase38.stg_open_id request)) w
    = (Js.Threw (Js.new_Error
         ("CONSTITUTIONAL_VIOLATION: Execution scope '" ++ Phase38.scope request
          ++ "' not authorized (authorized: '" ++ a ++ "')")),
       logAuditEvent
         (violation_unauthorized_execution (stg w) (clock w) (Phase38.scope request))
         w)).
  { intros t.
    unfold Phase38.runExecution, getSTGState, State.getSTGState, Date_now.
    cbn [Phase38.scope Phase38.execute].
    rewrite Hopen, Hexp, Hdiff. cbn [negb].
    unfold violation_unauthorized_execution. now rewrite Hscope. }
  assert (Hreq : Phase38.runExecution request w
    = (Js.Threw (Js.new_Error
         ("CONSTITUTIONAL_VIOLATION: Execution scope '" ++ Phase38.scope request
          ++ "' not authorized (authorized: '" ++ a ++ "')")),
       logAuditEvent
         (violation_unauthorized_execution (stg w) (clock w) (Phase38.scope request))
         w)).
  { destruct request as [rs re rid]. exact (Hrun re). }
  split; [exact Hne |].
  split; [exact Hreq |].
  rewrite Hreq. cbn [fst snd].
  split; [apply log_logAuditEvent |].
  split; [reflexivity |].
  split; [intros other; apply Hrun |].
  apply gate_passes; trivial.
  rewrite Hscope. apply isScopeAuthorized_spec. now right.
Qed.

End ExecutionClaims.

(** ** The properties at concrete stores *)

Section Instances.
Import Proc Spec.

(** C1 at the demo window: a call for [demo.think] under scope [demo]. *)
Lemma scope_rule_witness :
  State.state (stg demo_world) = State.OPEN
  /\ Gate.expired (clock demo_world) (stg demo_world) = false
  /\ State.scope (stg demo_world) = Some "demo"
  /\ (admitted (set_flag "X") "demo.think" demo_world
      <-> scope_within "demo.think" "demo").
Proof.
  split; [reflexivity |].
  split; [reflexivity |].
  split; [reflexivity |].
  apply (runCognitiveCycle_scope_rule (set_flag "X") "demo.think" "demo" demo_world);
    reflexivity.
Defined.

(** C2 at a closed window: the flag of the task stays unset. *)
Lemma window_closed_witness :
  State.state (stg closed_world) <> State.OPEN
  /\ ext (snd (Gate.runCognitiveCycle (set_flag "X") "demo" closed_world)) = false.
Proof.
  split; [discriminate |].
  apply (runCognitiveCycle_window_closed (set_flag "X") "demo" closed_world).
  discriminate.
Defined.

(** C6 at the demo window: at 1000 the call is let through (the window
    expires at 2000); at 2500 it is refused. *)
Lemma expiry_boundary_witness :
  Js.le (clock demo_world) 2000%float = true
  /\ admitted (set_flag "X") "demo" demo_world
  /\ Js.gt (clock late_world) 2000%float = true
  /\ fst (Gate.runCognitiveCycle (set_flag "X") "demo" late_world)
     = Js.Threw (Js.new_Error "CONSTITUTIONAL_VIOLATION: STG_OPEN has expired").
Proof.
  split; [reflexivity |].
  split.
  { apply (proj1 (runCognitiveCycle_expiry_boundary (set_flag "X") "demo" demo_world
                    eq_refl eq_refl) 2000%float); reflexivity. }
  split; [reflexivity |].
  destruct (proj1 (proj2 (runCognitiveCycle_expiry_boundary (set_flag "X") "demo"
                            late_world eq_refl eq_refl)) 2000%float eq_refl eq_refl)
    as [Hrun _].
  now rewrite Hrun.
Defined.

(** C7 on three attempts against a closed window. *)
Lemma burst_witness :
  Forall (fun x => unauthorized (stg closed_world) (a_now x) (a_scope x) = true)
    demo_burst
  /\ Audit.count_type Audit.CONSTITUTIONAL_VIOLATION
       (log (snd (burst demo_burst closed_world)))
     = Audit.count_type Audit.CONSTITUTIONAL_VIOLATION (log closed_world)
       + length demo_burst
  /\ ext (snd (burst demo_burst closed_world)) = false
  /\ stg (snd (burst demo_burst closed_world)) = State.initial.
Proof.
  assert (H : Forall (fun x => unauthorized (stg closed_world) (a_now x) (a_scope x) = true)
                demo_burst)
    by (repeat constructor).
  split; [exact H |].
  destruct (burst_of_denied_calls demo_burst closed_world H)
    as (_ & Hcount & _ & _ & _ & Hstg & Hext & _).
  split; [exact Hcount |].
  split; [exact Hext | exact Hstg].
Defined.

(** C8 at the demo window, with a task that throws a value whose
    conversion throws: the caller gets a TypeError instead, and the log
    holds the COGNITION_START alone. *)
Lemma task_outcome_witness :
  unauthorized (stg demo_world) (clock demo_world) "demo" = false
  /\ fst (Gate.runCognitiveCycle
            (throwing (T := string) Js.Unconvertible) "demo" demo_world)
     = Js.Threw (Js.ErrorObj "TypeError" "Cannot convert object to primitive value")
  /\ map Audit.type
       (log (snd (Gate.runCognitiveCycle
                    (throwing (T := string) Js.Unconvertible) "demo" demo_world)))
     = [Audit.COGNITION_START].
Proof.
  split; [reflexivity |].
  destruct (proj2 (proj2 (runCognitiveCycle_task_outcome
                            (throwing (T := string) Js.Unconvertible) "demo" demo_world
                            eq_refl))
              _ eq_refl) as (Hrun & _ & _).
  rewrite Hrun. split; reflexivity.
Defined.

(** C10 at the demo window: [demo.think] under scope [demo]. *)
Lemma rejects_descendant_witness :
  Js.startsWith (Phase38.scope demo_request) ("demo" ++ ".") = true
  /\ fst (Phase38.runExecution demo_request demo_world)
     = Js.Threw (Js.new_Error
         "CONSTITUTIONAL_VIOLATION: Execution scope 'demo.think' not authorized (authorized: 'demo')")
  /\ admitted (Phase38.execute demo_request) (Phase38.scope demo_request) demo_world.
Proof.
  split; [reflexivity |].
  destruct (runExecution_rejects_descendant_scope demo_request "demo" demo_world
              eq_refl eq_refl eq_refl eq_refl)
    as (_ & Hrun & _ & _ & _ & Hadm).
  split; [now rewrite Hrun | exact Hadm].
Defined.

(** The end-to-end scenario of the specification, run on the model: a
    call inside the window returns and logs a start and an end; after
    [closeSTG] the same call is refused and logs one violation. *)
Example end_to_end :
  let r1 := Gate.runCognitiveCycle (set_flag "X") "demo" demo_world in
  let r2 := Gate.runCognitiveCycle (set_flag "X") "demo"
              (closeSTG 1000%float (snd r1)) in
  fst r1 = Js.Returned "X"
  /\ map Audit.type (log (snd r1)) = [Audit.COGNITION_START; Audit.COGNITION_END]
  /\ threw_GateViolation (fst r2) = true
  /\ map Audit.reason (log (snd r2)) = ["authorized"; "completed"; "no_stg_open"]
  /\ Audit.count_type Audit.CONSTITUTIONAL_VIOLATION (log (snd r2)) = 1.
Proof. repeat split; reflexivity. Qed.

(** The expiry scenario of the specification: a window opened at 1000
    that expires at 1100 lets a call at 1050 and at 1100 through, and
    refuses one at 1101 with reason stg_expired. *)
Example expiry_scenario :
  let st := State.openSTG (State.mkOpen 1000%float 1100%float "demo" "w-2" 0%float)
              State.initial in
  let call t := Gate.runCognitiveCycle (set_flag "X") "demo"
                  (mkWorld st Audit.initial t false) in
  fst (call 1050%float) = Js.Returned "X"
  /\ fst (call 1100%float) = Js.Returned "X"
  /\ fst (call 1101%float)
     = Js.Threw (Js.new_Error "CONSTITUTIONAL_VIOLATION: STG_OPEN has expired")
  /\ map Audit.reason (log (snd (call 1101%float))) = ["stg_expired"]
  /\ ext (snd (call 1101%float)) = false.
Proof. repeat split; reflexivity. Qed.

End Instances.

(** ** The scope hierarchy *)

Section ScopeOrder.

Lemma str_app_cons (c : Ascii.ascii) (s t : string) :
  String c s ++ t = String c (s ++ t).
Proof. reflexivity. Qed.

Lemma str_app_nil_r (s : string) : s ++ "" = s.
Proof.
  induction s as [|c s IH]; [reflexivity |].
  now rewrite str_app_cons, IH.
Qed.

Lemma str_app_assoc (s t u : string) : (s ++ t) ++ u = s ++ (t ++ u).
Proof.
  induction s as [|c s IH]; [reflexivity |].
  now rewrite !str_app_cons, IH.
Qed.

Lemma str_length_app (s t : string) :
  String.length (s ++ t) = String.length s + String.length t.
Proof.
  induction s as [|c s IH]; [reflexivity |].
  rewrite str_app_cons. simpl. now rewrite IH.
Qed.

Lemma str_app_inv_head (s t u : string) : s ++ t = s ++ u -> t = u.
Proof.
  induction s as [|c s IH]; intros H; [exact H |].
  rewrite !str_app_cons in H. inversion H; auto.
Qed.

(** The rule of invariants.ts in the words of the specification. *)
Lemma scopeIsSubset_spec (s a : string) :
  Invariants.scopeIsSubset s a = true <-> Spec.scope_within s a.
Proof.
  unfold Invariants.scopeIsSubset, Spec.scope_within.
  rewrite orb_true_iff, str_eq_true. reflexivity.
Qed.

(** A strict descendant is longer than its ancestor. *)
Lemma descendant_longer (s a : string) :
  Js.startsWith s (a ++ ".") = true -> String.length a < String.length s.
Proof.
  intros H. apply startsWith_spec in H as [rest ->].
  rewrite !str_length_app. simpl. lia.
Qed.

(** X1: scope containment, as [scopeIsSubset] of Core and
    [isScopeAuthorized] of Body compute it, is one relation and a partial
    order: every scope contains itself, two scopes that contain each other
    are equal (a window never authorizes an ancestor of its scope), and a
    descendant of a descendant is a descendant. *)
Theorem scope_containment_partial_order :
  (forall s a : string,
      Gate.isScopeAuthorized s (Some a) = Invariants.scopeIsSubset s a)
  /\ (forall a : string, Invariants.scopeIsSubset a a = true)
  /\ (forall s a : string,
        Invariants.scopeIsSubset s a = true ->
        Invariants.scopeIsSubset a s = true -> s = a)
  /\ (forall c b a : string,
        Invariants.scopeIsSubset c b = true ->
        Invariants.scopeIsSubset b a = true ->
        Invariants.scopeIsSubset c a = true).
Proof.
  split; [reflexivity |].
  split.
  { intros a. apply scopeIsSubset_spec. now left. }
  split.
  { intros s a Hsa Has.
    apply scopeIsSubset_spec in Hsa as [-> | Hsa]; [reflexivity |].
    apply scopeIsSubset_spec in Has as [-> | Has]; [reflexivity |].
    apply descendant_longer in Hsa, Has. lia. }
  intros c b a Hcb Hba.
  apply scopeIsSubset_spec in Hcb as [-> | Hcb]; [exact Hba |].
  apply scopeIsSubset_spec in Hba as [-> | Hba].
  { apply scopeIsSubset_spec. now right. }
  apply scopeIsSubset_spec. right.
  apply startsWith_spec in Hcb as [r1 ->].
  apply startsWith_spec in Hba as [r2 ->].
  apply startsWith_spec. exists (r2 ++ "." ++ r1).
  now rewrite !str_app_assoc.
Qed.

(** X2: a requested scope that continues the text of the authorized scope
    is authorized exactly when the continuation is empty or begins with a
    dot: sharing a textual prefix is not enough. *)
Theorem isScopeAuthorized_needs_dot :
  forall a rest : string,
    Gate.isScopeAuthorized (a ++ rest) (Some a) = true
    <-> rest = "" \/ Js.startsWith rest "." = true.
Proof.
  intros a rest. rewrite isScopeAuthorized_spec. unfold Spec.scope_within.
  split; intros [H | H].
  - left. apply (str_app_inv_head a). now rewrite str_app_nil_r.
  - right. apply startsWith_spec in H as [r H].
    rewrite str_app_assoc in H. apply str_app_inv_head in H.
    apply startsWith_spec. now exists r.
  - left. subst rest. apply str_app_nil_r.
  - right. apply startsWith_spec in H as [r ->].
    apply startsWith_spec. exists r. now rewrite str_app_assoc.
Qed.

Example needs_dot_examples :
  Gate.isScopeAuthorized ("demo" ++ "lition") (Some "demo") = false
  /\ Gate.isScopeAuthorized ("demo" ++ ".") (Some "demo") = true
  /\ Gate.isScopeAuthorized ("" ++ ".hidden") (Some "") = true
  /\ Gate.isScopeAuthorized "cognition.*.all" (Some "cognition.test") = false.
Proof. repeat split; reflexivity. Qed.

End ScopeOrder.

(** ** The audit-side invariant check *)

Section InvariantFacts.
Import Invariants.

(** [a == b] excludes [b < a]. *)
Lemma num_eq_not_lt (a b : Js.number) : Js.num_eq a b = true -> Js.lt b a = false.
Proof.
  unfold Js.num_eq, Js.lt.
  rewrite FloatAxioms.eqb_spec, FloatAxioms.ltb_spec. unfold SFeqb, SFltb.
  intros H.
  destruct (SFcompare (Prim2SF b) (Prim2SF a)) as [[]|] eqn:E; try reflexivity.
  apply SFcompare_swap_Lt in E. rewrite E in H. discriminate.
Qed.

(** [b < a] excludes [a <= b]. *)
Lemma lt_not_le (a b : Js.number) : Js.lt b a = true -> Js.le a b = false.
Proof.
  intros H. destruct (Js.le a b) eqn:Hle; [| reflexivity].
  apply le_not_gt in Hle. unfold Js.gt in Hle. unfold Js.lt in H. congruence.
Qed.

(** X3: [verifyCognitionAuthorization] accepts a cognition exactly when
    some recorded opening has its id, was issued strictly before the
    completion, had not expired at the completion, and covers its scope.
    So no opening means no authorization, and recording more openings
    never withdraws one. *)
Theorem verifyCognitionAuthorization_spec :
  forall (cognition : CognitionEvent) (opens : list STGOpenEvent),
    (verifyCognitionAuthorization cognition opens = true
     <-> exists open : STGOpenEvent,
           In open opens
           /\ stg_open_id open = c_stg_open_id cognition
           /\ Js.lt (issued_at open) (completed_at cognition) = true
           /\ Js.le (completed_at cognition) (expires_at open) = true
           /\ Spec.scope_within (c_scope cognition) (scope open))
    /\ verifyCognitionAuthorization cognition [] = false
    /\ (forall more : list STGOpenEvent,
          verifyCognitionAuthorization cognition opens = true ->
          verifyCognitionAuthorization cognition (more ++ opens)%list = true
          /\ verifyCognitionAuthorization cognition (opens ++ more)%list = true).
Proof.
  intros cognition opens.
  split; [| split; [reflexivity |]].
  - unfold verifyCognitionAuthorization. rewrite existsb_exists.
    split; intros (open & Hin & H); exists open; (split; [exact Hin |]).
    + rewrite !andb_true_iff in H. destruct H as (((Hid & Hlt) & Hle) & Hsc).
      apply str_eq_true in Hid. apply scopeIsSubset_spec in Hsc. auto.
    + destruct H as (Hid & Hlt & Hle & Hsc).
      rewrite !andb_true_iff. repeat split; trivial.
      * now apply str_eq_true.
      * now apply scopeIsSubset_spec.
  - intros more H. unfold verifyCognitionAuthorization in *.
    rewrite !existsb_app, H. split; [apply orb_true_r | reflexivity].
Qed.

(** X4: the time window of the check is open below and closed above.
    Against one opening with the right id and scope, a cognition
    completed at the expiry time is accepted (when that is after the
    issue time), one completed at the issue time is rejected, and one
    completed after the expiry time is rejected. *)
Theorem verifyCognitionAuthorization_time_bounds :
  forall (cognition : CognitionEvent) (open : STGOpenEvent),
    stg_open_id open = c_stg_open_id cognition ->
    scopeIsSubset (c_scope cognition) (scope open) = true ->
    (Js.num_eq (completed_at cognition) (expires_at open) = true ->
     Js.lt (issued_at open) (completed_at cognition) = true ->
     verifyCognitionAuthorization cognition [open] = true)
    /\ (Js.num_eq (completed_at cognition) (issued_at open) = true ->
        verifyCognitionAuthorization cognition [open] = false)
    /\ (Js.lt (expires_at open) (completed_at cognition) = true ->
        verifyCognitionAuthorization cognition [open] = false).
Proof.
  intros cognition open Hid Hsc.
  apply str_eq_true in Hid.
  unfold verifyCognitionAuthorization. cbn [existsb].
  rewrite Hid, Hsc. cbn [andb].
  split; [| split].
  - intros Heq Hlt. now rewrite Hlt, (num_eq_le _ _ Heq).
  - intros Heq. now rewrite (num_eq_not_lt _ _ Heq).
  - intros Hlt. rewrite (lt_not_le _ _ Hlt).
    now destruct (Js.lt (issued_at open) (completed_at cognition)).
Qed.

End InvariantFacts.

(** ** More on the evaluator *)

Section EvaluatorFacts.
Import Core.

(** NaN compares false with everything. *)
Lemma le_nan_l (x : Js.number) : Js.le nan x = false.
Proof.
  unfold Js.le. rewrite FloatAxioms.leb_spec.
  change (Prim2SF nan) with S754_nan. reflexivity.
Qed.

Lemma lt_nan_r (x : Js.number) : Js.lt x nan = false.
Proof.
  unfold Js.lt. rewrite FloatAxioms.ltb_spec.
  change (Prim2SF nan) with S754_nan.
  unfold SFltb. now destruct (Prim2SF x).
Qed.

(** X5: the evaluator opens the gate exactly when no cooldown is active,
    the intent is authorized, resources are available and both signals
    are not at or below their thresholds; it defers exactly when only the
    resources are missing.  The reason code tells the decision: OPEN
    goes with thresholds_satisfied and DEFER with insufficient_resources,
    and with nothing else. *)
Theorem evaluateGate_open_and_defer :
  forall (signals : STGSignals) (policy : STGPolicy)
         (now cooldown_until : Js.number),
    let result := evaluateGate signals policy now cooldown_until in
    (decision result = OPEN
     <-> Js.lt now cooldown_until = false
         /\ intent_authorized signals = true
         /\ resources_ok signals = true
         /\ Js.le (prediction_error signals) (epsilon_prediction_error policy) = false
         /\ Js.le (novelty_delta signals) (delta_novelty policy) = false)
    /\ (decision result = DEFER
        <-> Js.lt now cooldown_until = false
            /\ intent_authorized signals = true
            /\ resources_ok signals = false)
    /\ (decision result = OPEN <-> reason result = "thresholds_satisfied")
    /\ (decision result = DEFER <-> reason result = "insufficient_resources").
Proof.
  intros signals policy now cooldown_until. cbv zeta.
  unfold evaluateGate.
  destruct (Js.lt now cooldown_until);
    destruct (intent_authorized signals);
    destruct (resources_ok signals);
    destruct (Js.le (prediction_error signals) (epsilon_prediction_error policy));
    destruct (Js.le (novelty_delta signals) (delta_novelty policy));
    cbn [negb decision reason];
    (split; [| split; [| split]]); split; intros H;
    try discriminate; try reflexivity;
    try (now repeat split);
    try (destruct H as (? & ? & ? & ? & ?); discriminate);
    try (destruct H as (? & ? & ?); discriminate).
Qed.

(** X6: NaN signals pass both threshold checks.  With the intent
    authorized, resources available and no cooldown active, a prediction
    error and a novelty that are NaN open the gate under every policy;
    and a NaN cooldown deadline never counts as an active cooldown. *)
Theorem evaluateGate_nan :
  forall (policy : STGPolicy) (now cooldown_until : Js.number)
         (requested : CognitiveScope),
    Js.lt now cooldown_until = false ->
    evaluateGate (mkSignals nan nan true true requested) policy now cooldown_until
    = mkResult OPEN "thresholds_satisfied"
    /\ (forall signals : STGSignals,
          reason (evaluateGate signals policy now nan) <> "cooldown_active").
Proof.
  intros policy now cooldown_until requested Hcool. split.
  - unfold evaluateGate. cbn [prediction_error novelty_delta intent_authorized resources_ok].
    now rewrite Hcool, !le_nan_l.
  - intros signals. unfold evaluateGate. rewrite lt_nan_r.
    repeat match goal with |- context [if ?c then _ else _] =>
      destruct c; try discriminate end.
Qed.

End EvaluatorFacts.

(** ** Sequences of state operations *)

Section LifecycleFacts.
Import State Behaviour.

Lemma well_shaped_apply_op (op : StgOp) (st : STGState) :
  well_shaped (apply_op op st).
Proof.
  destruct op as [params | now]; unfold well_shaped; simpl; repeat split; eauto.
Qed.

Lemma apply_ops_snoc (ops : list StgOp) (op : StgOp) (st : STGState) :
  apply_ops (ops ++ [op]) st = apply_op op (apply_ops ops st).
Proof. unfold apply_ops. now rewrite foldl_app. Qed.

(** X7: every state reached from the initial one by [openSTG] and
    [closeSTG], in any number and order, has the shape the operations
    promise: closed with scope, id and expiry null, or open with scope,
    id, expiry and opening time set. *)
Theorem reachable_states_well_shaped :
  forall ops : list StgOp, well_shaped (apply_ops ops initial).
Proof.
  intros ops. induction ops as [| op ops _] using rev_ind.
  - unfold well_shaped; simpl. repeat split.
  - rewrite apply_ops_snoc. apply well_shaped_apply_op.
Qed.

(** What [closeSTG] writes, with the conditional resolved. *)
Lemma closeSTG_value (n : Js.number) (st : STGState) :
  closeSTG n st
  = mkState CLOSED (last_open_time st) None None None (cooldown_until st).
Proof. unfold closeSTG. now destruct (Js.gt (cooldown_until st) n). Qed.

(** X8: closing is idempotent and never moves the cooldown or the time of
    the last opening: a second [closeSTG], at any time, changes nothing,
    and after [openSTG] any run of closes leaves the opening time and the
    cooldown that the opener gave. *)
Theorem closeSTG_idempotent :
  (forall (n1 n2 : Js.number) (st : STGState),
      closeSTG n2 (closeSTG n1 st) = closeSTG n1 st)
  /\ (forall (params : OpenParams) (nows : list Js.number) (n : Js.number)
            (st : STGState),
        apply_ops (Open params :: Close n :: map Close nows) st
        = mkState CLOSED (Some (o_now params)) None None None
            (o_cooldown_until params)).
Proof.
  split.
  { intros n1 n2 st. now rewrite !closeSTG_value. }
  intros params nows n st.
  change (Open params :: Close n :: map Close nows)
    with ([Open params; Close n] ++ map Close nows)%list.
  unfold apply_ops. rewrite foldl_app.
  cbn [foldl apply_op]. rewrite closeSTG_value.
  cbn [openSTG last_open_time cooldown_until].
  induction nows as [| m nows IH] using rev_ind; [reflexivity |].
  rewrite map_app, foldl_app, IH. cbn [map foldl apply_op].
  now rewrite closeSTG_value.
Qed.

End LifecycleFacts.

(** ** The gate as a whole *)

Section GateWhole.
Import Proc Spec Behaviour.
Context {E T : Type}.
Implicit Types (task : Task E T) (s : string) (w : World E).

(** X9: the three checks decide the call and nothing else does.  The
    gate lets a call through exactly when the window is open, not
    expired and the scope authorized; in every other case it throws the
    error of the first failing check and appends that check's violation,
    whatever the task is. *)
Theorem runCognitiveCycle_decided_by_checks :
  forall task s w,
    (admitted task s w <-> unauthorized (stg w) (clock w) s = false)
    /\ (unauthorized (stg w) (clock w) s = true ->
        Gate.runCognitiveCycle task s w
        = (Js.Threw (Js.new_Error (denial_message (stg w) (clock w) s)),
           logAuditEvent (violation_of (stg w) (clock w) s) w)
        /\ threw_GateViolation (fst (Gate.runCognitiveCycle task s w)) = true).
Proof.
  intros task s w.
  assert (Hpass : unauthorized (stg w) (clock w) s = false -> admitted task s w).
  { unfold unauthorized. intros H.
    apply orb_false_iff in H as [H Hauth].
    apply orb_false_iff in H as [Hopen Hexp].
    apply negb_false_iff in Hopen, Hauth. now apply gate_passes. }
  split.
  - split; [| exact Hpass].
    intros Hadm.
    destruct (unauthorized (stg w) (clock w) s) eqn:Hun; [| reflexivity].
    exfalso. revert Hadm.
    eapply admitted_not_denied; [| exact (gate_denies task s w Hun)].
    apply violation_of_type.
  - intros Hun. rewrite (gate_denies task s w Hun). cbn [fst].
    split; [reflexivity |].
    apply (denial_message_tagged (stg w) (clock w) s).
Qed.

(** X10: an open window whose scope is null authorizes nothing: every
    call, for every scope, appends a violation with reason
    unauthorized_cognition and throws an error that names the authorized
    scope as 'null'. *)
Theorem runCognitiveCycle_null_scope :
  forall task s w,
    State.state (stg w) = State.OPEN ->
    State.scope (stg w) = None ->
    Gate.expired (clock w) (stg w) = false ->
    Gate.runCognitiveCycle task s w
    = (Js.Threw (Js.new_Error
         ("CONSTITUTIONAL_VIOLATION: Scope '" ++ s
          ++ "' not authorized (authorized: 'null')")),
       logAuditEvent (violation_unauthorized_cognition (stg w) (clock w) s) w).
Proof.
  intros task s w Hopen Hnull Hexp. apply is_open_true in Hopen.
  rewrite (gate_scope task s w Hopen Hexp); [now rewrite Hnull |].
  now rewrite Hnull.
Qed.

Lemma count_type_snoc (t : Audit.AuditEventType) (l : list Audit.AuditEvent)
    (e : Audit.AuditEvent) :
  Audit.count_type t (l ++ [e])
  = Audit.count_type t l + (if Audit.type_eq (Audit.type e) t then 1 else 0).
Proof.
  rewrite count_type_app. f_equal.
  unfold Audit.count_type.
  destruct (Audit.type_eq (Audit.type e) t) eqn:Ht.
  - now rewrite filter_cons_True.
  - rewrite filter_cons_False; [reflexivity | congruence].
Qed.

(** A value other than [Unconvertible] converts to a string. *)
Lemma String_of_converts (e : Js.thrown) :
  e <> Js.Unconvertible -> exists image : string, Js.String_of e = Js.Returned image.
Proof. destruct e; simpl; intros H; eauto. congruence. Qed.

(** One admitted call with a quiet task: what it leaves behind. *)
Lemma admitted_quiet_step task s w :
  unauthorized (stg w) (clock w) s = false ->
  quiet task ->
  stg (snd (Gate.runCognitiveCycle task s w)) = stg w
  /\ Audit.count_type Audit.CONSTITUTIONAL_VIOLATION
       (log (snd (Gate.runCognitiveCycle task s w)))
     = Audit.count_type Audit.CONSTITUTIONAL_VIOLATION (log w)
  /\ Audit.count_type Audit.COGNITION_START
       (log (snd (Gate.runCognitiveCycle task s w)))
     = S (Audit.count_type Audit.COGNITION_START (log w))
  /\ (convertible task ->
      map Audit.type (log (snd (Gate.runCognitiveCycle task s w)))
      = (map Audit.type (log w)
         ++ [Audit.COGNITION_START; Audit.COGNITION_END])%list
      /\ exists w1 : World E, fst (Gate.runCognitiveCycle task s w) = fst (task w1)).
Proof.
  intros Hok Hquiet. unfold unauthorized in Hok.
  apply orb_false_iff in Hok as [Hok Hauth].
  apply orb_false_iff in Hok as [Hopen Hexp].
  apply negb_false_iff in Hopen, Hauth.
  pose proof (gate_passes task s w Hopen Hexp Hauth) as Hadm.
  unfold admitted in Hadm. cbv zeta in Hadm. rewrite Hadm.
  set (w1 := logAuditEvent (cognition_start (stg w) (clock w) s) w) in *.
  destruct (Hquiet w1) as [Hstg Haud].
  assert (Hlog : log (snd (task w1)) = (log w ++ [cognition_start (stg w) (clock w) s])%list).
  { unfold log at 1. rewrite Haud. apply log_logAuditEvent. }
  destruct (task w1) as [[v | e] w2] eqn:Htask; cbn [fst snd] in *.
  - rewrite conclude_returned. cbn [fst snd stg logAuditEvent].
    split; [exact Hstg |].
    rewrite log_logAuditEvent, Hlog.
    split; [rewrite !count_type_snoc; cbn; lia |].
    split; [rewrite !count_type_snoc; cbn; lia |].
    intros _. split.
    + rewrite !map_app, <- app_assoc. reflexivity.
    + exists w1. now rewrite Htask.
  - destruct (Js.String_of e) as [image | ce] eqn:Hconv.
    + rewrite (conclude_threw _ _ _ _ _ Hconv). cbn [fst snd stg logAuditEvent].
      split; [exact Hstg |].
      rewrite log_logAuditEvent, Hlog.
      split; [rewrite !count_type_snoc; cbn; lia |].
      split; [rewrite !count_type_snoc; cbn; lia |].
      intros _. split.
      * rewrite !map_app, <- app_assoc. reflexivity.
      * exists w1. now rewrite Htask.
    + apply String_of_throws in Hconv as [-> ->].
      rewrite conclude_unconvertible. cbn [fst snd].
      split; [exact Hstg |].
      rewrite Hlog.
      split; [rewrite !count_type_snoc; cbn; lia |].
      split; [rewrite !count_type_snoc; cbn; lia |].
      intros Hconv. exfalso.
      apply (Hconv w1 Js.Unconvertible); [now rewrite Htask | reflexivity].
Qed.

(** X11: while the window is open, any number of calls pass.  A burst of
    calls that each meet the three checks, with tasks that leave the
    window state and the audit log alone, adds exactly one
    COGNITION_START per call and no violation, and the window state is
    as before, so the gate does not close or consume the window.  When
    no task throws a value whose conversion to a string throws, every
    call adds its COGNITION_START and its COGNITION_END, in that order,
    and every outcome is an outcome of the call's own task. *)
Theorem burst_of_admitted_calls :
  forall (attempts : list (@Attempt E T)) w,
    Forall (fun x => unauthorized (stg w) (a_now x) (a_scope x) = false
                     /\ quiet (a_task x)) attempts ->
    stg (snd (burst attempts w)) = stg w
    /\ Audit.count_type Audit.CONSTITUTIONAL_VIOLATION (log (snd (burst attempts w)))
       = Audit.count_type Audit.CONSTITUTIONAL_VIOLATION (log w)
    /\ Audit.count_type Audit.COGNITION_START (log (snd (burst attempts w)))
       = Audit.count_type Audit.COGNITION_START (log w) + length attempts
    /\ (Forall (fun x => convertible (a_task x)) attempts ->
        map Audit.type (log (snd (burst attempts w)))
        = (map Audit.type (log w) ++ start_end_pairs (length attempts))%list
        /\ Forall2 (fun x c => exists w1 : World E, c = fst (a_task x w1))
             attempts (fst (burst attempts w))).
Proof.
  intros attempts. induction attempts as [| x attempts IH]; intros w Hall.
  - cbn. rewrite app_nil_r, Nat.add_0_r. repeat split. constructor.
  - inversion Hall as [| ? ? [Hx Hq] Hrest]; subst.
    rewrite burst_cons. cbn [fst snd].
    destruct (admitted_quiet_step (a_task x) (a_scope x) (at_time (a_now x) w) Hx Hq)
      as (Hstg & Hcount & Hstart & Hconv).
    cbn [stg at_time] in Hstg.
    change (log (at_time (a_now x) w)) with (log w) in *.
    set (w' := snd (Gate.runCognitiveCycle (a_task x) (a_scope x)
                      (at_time (a_now x) w))) in *.
    assert (Hrest' : Forall (fun y => unauthorized (stg w') (a_now y) (a_scope y) = false
                                      /\ quiet (a_task y)) attempts)
      by (now rewrite Hstg).
    destruct (IH w' Hrest') as (IHstg & IHcount & IHstart & IHconv).
    split; [now rewrite IHstg |].
    split; [now rewrite IHcount, Hcount |].
    split; [rewrite IHstart, Hstart; cbn [length]; lia |].
    intros Hall_conv. inversion Hall_conv as [| ? ? Hcx Hcrest]; subst.
    destruct (Hconv Hcx) as (Htypes & w1 & Hout).
    destruct (IHconv Hcrest) as (IHtypes & IHout).
    split.
    { rewrite IHtypes, Htypes. cbn [length start_end_pairs].
      rewrite <- app_assoc. reflexivity. }
    constructor; [now exists w1 | exact IHout].
Qed.

(** X12: the life of one window.  After [openSTG], a call made no later
    than the expiry given to the opener, for the opened scope or one
    below it, is let through; after [closeSTG], whatever happened to the
    store in between, the same call is refused at any time with reason
    no_stg_open. *)
Theorem open_call_close_call :
  forall (params : State.OpenParams) task s (now : Js.number) w,
    scope_within s (State.o_scope params) ->
    Js.le now (State.o_expires_at params) = true ->
    admitted task s (at_time now (openSTG params w))
    /\ (forall (closed_at later : Js.number) (w' : World E),
          Gate.runCognitiveCycle task s (at_time later (closeSTG closed_at w'))
          = (Js.Threw (Js.new_Error
               "CONSTITUTIONAL_VIOLATION: Cognition attempted without STG_OPEN"),
             logAuditEvent
               (violation_no_stg_open (State.closeSTG closed_at (stg w')) later s)
               (at_time later (closeSTG closed_at w')))).
Proof.
  intros params task s now w Hin Hle. split.
  - apply gate_passes.
    + reflexivity.
    + cbn. now apply le_not_gt.
    + cbn [stg at_time openSTG State.openSTG State.scope].
      now apply isScopeAuthorized_spec.
  - intros closed_at later w'. now apply gate_not_open.
Qed.

End GateWhole.

(** ** The execution entry point as a whole *)

Section ExecutionWhole.
Import Proc Spec Behaviour.
Context {E T : Type}.
Implicit Types (request : Phase38.ExecutionRequest E T) (w : World E).

(** Check 1 of [runExecution] fails. *)
Lemma exec_not_open request w :
  is_open (stg w) = false ->
  Phase38.runExecution request w
  = (Js.Threw (Js.new_Error
       "CONSTITUTIONAL_VIOLATION: Execution attempted without STG authorization (no_stg_open)"),
     logAuditEvent (execution_no_stg_open (clock w) (Phase38.scope request)) w).
Proof.
  unfold is_open. intros H.
  unfold Phase38.runExecution, getSTGState, State.getSTGState, Date_now.
  now rewrite H.
Qed.

(** Check 2 of [runExecution] fails: the window is closed by force. *)
Lemma exec_expired request w :
  is_open (stg w) = true ->
  Gate.expired (clock w) (stg w) = true ->
  Phase38.runExecution request w
  = (Js.Threw (Js.new_Error
       "CONSTITUTIONAL_VIOLATION: Execution attempted with expired authorization"),
     closeSTG (clock w)
       (logAuditEvent
          (authorization_expired (stg w) (clock w) (Phase38.scope request)) w)).
Proof.
  unfold is_open. intros Ho He.
  unfold Phase38.runExecution, getSTGState, State.getSTGState, Date_now.
  now rewrite Ho, He.
Qed.


(** All three checks pass: the callback runs. *)
Lemma exec_passes request w :
  exec_refused (stg w) (clock w) (Phase38.scope request) = false ->
  executed request w.
Proof.
  unfold exec_refused, is_open, executed. intros H.
  apply orb_false_iff in H as [H Hs].
  apply orb_false_iff in H as [Ho He].
  apply negb_false_iff in Ho.
  unfold Phase38.runExecution, getSTGState, State.getSTGState, Date_now.
  rewrite Ho, He, Hs. cbn [negb].
  fold (execution_start (stg w) (clock w) (Phase38.scope request)).
  destruct (Phase38.execute request _) as [[v|e] w2]; reflexivity.
Qed.

(** The conclusion of an execution leaves the window state to the
    callback. *)
Lemma conclude_execution_stg (st : State.STGState) (s : string)
    (r : Js.completion T * World E) :
  stg (snd (conclude_execution st s r)) = stg (snd r).
Proof.
  destruct r as [[v | e] w2]; [reflexivity |].
  cbn [conclude_execution]. now destruct (Js.message_of e).
Qed.

(** X13: on an expired window [runExecution] does more than refuse: it
    appends a violation with reason authorization_expired, closes the
    window by force (state CLOSED, scope, id and expiry null, cooldown
    kept) and throws without running the callback.  The next request,
    at any time and for any scope, is therefore refused with reason
    no_stg_open.  [runCognitiveCycle] on the same store leaves the window
    state as it is. *)
Theorem runExecution_expiry_closes_window :
  forall request w,
    State.state (stg w) = State.OPEN ->
    Gate.expired (clock w) (stg w) = true ->
    Phase38.runExecution request w
    = (Js.Threw (Js.new_Error
         "CONSTITUTIONAL_VIOLATION: Execution attempted with expired authorization"),
       closeSTG (clock w)
         (logAuditEvent
            (authorization_expired (stg w) (clock w) (Phase38.scope request)) w))
    /\ stg (snd (Phase38.runExecution request w))
       = State.mkState State.CLOSED (State.last_open_time (stg w)) None None None
           (State.cooldown_until (stg w))
    /\ log (snd (Phase38.runExecution request w))
       = (log w ++ [authorization_expired (stg w) (clock w) (Phase38.scope request)])%list
    /\ ext (snd (Phase38.runExecution request w)) = ext w
    /\ (forall (next : Phase38.ExecutionRequest E T) (later : Js.number),
          Phase38.runExecution next
            (at_time later (snd (Phase38.runExecution request w)))
          = (Js.Threw (Js.new_Error
               "CONSTITUTIONAL_VIOLATION: Execution attempted without STG authorization (no_stg_open)"),
             logAuditEvent (execution_no_stg_open later (Phase38.scope next))
               (at_time later (snd (Phase38.runExecution request w)))))
    /\ (forall (task : Task E T) (s : string),
          stg (snd (Gate.runCognitiveCycle task s w)) = stg w).
Proof.
  intros request w Hopen Hexp. apply is_open_true in Hopen.
  rewrite (exec_expired request w Hopen Hexp). cbn [fst snd].
  split; [reflexivity |].
  split; [cbn [stg closeSTG logAuditEvent]; apply closeSTG_value |].
  split; [apply (log_logAuditEvent _ w) |].
  split; [reflexivity |].
  split.
  - intros next later. apply exec_not_open.
    cbn [stg at_time closeSTG]. unfold is_open. now rewrite closeSTG_value.
  - intros task s. now rewrite (gate_expired task s w Hopen Hexp).
Qed.


(** X15: an execution does not use the window up.  After a request that
    passed the checks, with a callback that leaves the window state and
    the audit log alone, the window state is as before, and the same
    request made again, at any later time that still passes the checks,
    is carried out again. *)
Theorem runExecution_does_not_consume :
  forall request w,
    exec_refused (stg w) (clock w) (Phase38.scope request) = false ->
    quiet (Phase38.execute request) ->
    stg (snd (Phase38.runExecution request w)) = stg w
    /\ (forall later : Js.number,
          exec_refused (stg w) later (Phase38.scope request) = false ->
          executed request (at_time later (snd (Phase38.runExecution request w)))).
Proof.
  intros request w Hok Hquiet.
  pose proof (exec_passes request w Hok) as Hex.
  unfold executed in Hex. cbv zeta in Hex.
  assert (Hstg : stg (snd (Phase38.runExecution request w)) = stg w).
  { rewrite Hex, conclude_execution_stg.
    now destruct (Hquiet (logAuditEvent
      (execution_start (stg w) (clock w) (Phase38.scope request)) w)). }
  split; [exact Hstg |].
  intros later Hlater. apply exec_passes.
  cbn [stg clock at_time]. now rewrite Hstg.
Qed.

(** X16: the execution gate is the stricter one.  Whenever the checks of
    [runExecution] pass for a scope, [runCognitiveCycle] lets a call for
    that scope through on the same store. *)
Theorem runExecution_stricter_than_gate :
  forall request w,
    exec_refused (stg w) (clock w) (Phase38.scope request) = false ->
    unauthorized (stg w) (clock w) (Phase38.scope request) = false
    /\ admitted (Phase38.execute request) (Phase38.scope request) w.
Proof.
  intros request w H. unfold exec_refused in H.
  apply orb_false_iff in H as [H Hs].
  apply orb_false_iff in H as [Ho He].
  apply negb_false_iff in Ho.
  assert (Hauth : Gate.isScopeAuthorized (Phase38.scope request) (State.scope (stg w)) = true).
  { unfold Phase38.scope_differs in Hs.
    destruct (State.scope (stg w)) as [a |]; [| discriminate].
    apply negb_false_iff, str_eq_true in Hs. subst a.
    apply isScopeAuthorized_spec. now left. }
  split.
  - unfold unauthorized. now rewrite Ho, He, Hauth.
  - now apply gate_passes.
Qed.

End ExecutionWhole.

(** ** References to the log array *)

Section AuditReferences.
Import Audit Behaviour.

Lemma fresh_not_log (s : Store) :
  log_allocated s -> fresh (dom (arrays s)) <> _log s.
Proof.
  intros Halloc Heq.
  apply (is_fresh (dom (arrays s))). rewrite Heq.
  now apply elem_of_dom.
Qed.

(** X17: what [getAuditLog] hands out is the live array, until the log is
    cleared.  An array obtained before an append shows the appended
    event; [clearAuditLog] points the log to a new, empty array, so the
    array obtained before keeps the old events and shows none of the
    later ones, while the log itself starts over. *)
Theorem getAuditLog_live_until_cleared :
  forall (s : Store) (event : AuditEvent),
    log_allocated s ->
    elements (getAuditLog s) (logAuditEvent event s)
    = (elements (getAuditLog s) s ++ [event])%list
    /\ getAuditLog (clearAuditLog s) <> getAuditLog s
    /\ elements (getAuditLog s) (clearAuditLog s) = elements (getAuditLog s) s
    /\ elements (getAuditLog s) (logAuditEvent event (clearAuditLog s))
       = elements (getAuditLog s) s
    /\ contents (logAuditEvent event (clearAuditLog s)) = [event].
Proof.
  intros s event Halloc.
  pose proof (fresh_not_log s Halloc) as Hfresh.
  split; [apply elements_insert |].
  split; [exact Hfresh |].
  split.
  { unfold elements, clearAuditLog, getAuditLog; cbn [arrays].
    now rewrite lookup_insert_ne. }
  split.
  { unfold elements, logAuditEvent, clearAuditLog, getAuditLog; cbn [arrays _log].
    now rewrite !lookup_insert_ne. }
  now rewrite contents_logAuditEvent, contents_clearAuditLog.
Qed.

(** X18: appends keep the history.  After any sequence of
    [logAuditEvent] calls the log reads as what it read before followed
    by the appended events in the order of the calls: nothing is
    removed, reordered or edited, and its length grows by the number of
    calls.  The log variable then points to an array of the store, as it
    does initially and after [clearAuditLog]. *)
Theorem logAuditEvent_keeps_history :
  forall (events : list AuditEvent) (s : Store),
    contents (foldl (fun st e => logAuditEvent e st) s events)
    = (contents s ++ events)%list
    /\ contents s `prefix_of` contents (foldl (fun st e => logAuditEvent e st) s events)
    /\ length (contents (foldl (fun st e => logAuditEvent e st) s events))
       = length (contents s) + length events
    /\ (forall e : AuditEvent, log_allocated (logAuditEvent e s))
    /\ log_allocated initial
    /\ log_allocated (clearAuditLog s).
Proof.
  intros events s.
  pose proof (contents_appends events s) as Hc.
  split; [exact Hc |].
  split; [rewrite Hc; now apply prefix_app_r |].
  split; [now rewrite Hc, length_app |].
  split.
  { intros e. unfold log_allocated, logAuditEvent; cbn [arrays _log].
    rewrite lookup_insert_eq. eauto. }
  split.
  { unfold log_allocated, initial; cbn [arrays _log].
    rewrite lookup_singleton_eq. eauto. }
  unfold log_allocated, clearAuditLog; cbn [arrays _log].
  rewrite lookup_insert_eq. eauto.
Qed.

End AuditReferences.

(** ** The genesis entry point *)

Section GenesisFacts.
Import Proc Spec Behaviour Genesis.
Context {E P : Type}.
Implicit Types (task : GenesisTask P) (auth : GenesisCognitionAuthorization)
  (later : Readings) (w : World E).

(** Order of clock readings on specifications of doubles. *)
Lemma SFcompare_Lt_trans (x y z : spec_float) :
  SFcompare x y = Some Lt ->
  (SFcompare y z = Some Lt \/ SFcompare y z = Some Eq) ->
  SFcompare x z = Some Lt.
Proof.
  destruct x as [sx|sx| |sx mx ex], y as [sy|sy| |sy my ey], z as [sz|sz| |sz mz ez];
    simpl;
    repeat match goal with
           | b : bool |- _ => destruct b
           end; simpl; intros H1 [H2 | H2]; try congruence.
  all: change (Pos.compare_cont Eq mx my) with (Pos.compare mx my) in *;
       change (Pos.compare_cont Eq my mz) with (Pos.compare my mz) in *;
       change (Pos.compare_cont Eq mx mz) with (Pos.compare mx mz) in *.
  all: destruct (Z.compare_spec ex ey), (Z.compare_spec ey ez), (Z.compare_spec ex ez);
       subst; try lia; try congruence.
  all: destruct (Pos.compare_spec mx my), (Pos.compare_spec my mz), (Pos.compare_spec mx mz);
       subst; simpl in *; try lia; try congruence.
Qed.

(** A time past a deadline stays past it as the clock moves on. *)
Lemma gt_le_trans (deadline t0 t1 : Js.number) :
  Js.gt t0 deadline = true -> Js.le t0 t1 = true -> Js.gt t1 deadline = true.
Proof.
  unfold Js.gt, Js.le.
  rewrite !FloatAxioms.ltb_spec, FloatAxioms.leb_spec. unfold SFltb, SFleb.
  intros H1 H2.
  rewrite (SFcompare_Lt_trans (Prim2SF deadline) (Prim2SF t0) (Prim2SF t1));
    [reflexivity | |].
  - now destruct (SFcompare (Prim2SF deadline) (Prim2SF t0)) as [[]|].
  - destruct (SFcompare (Prim2SF t0) (Prim2SF t1)) as [[]|]; auto; discriminate.
Qed.

(** A window that refuses a call refuses it later too. *)
Lemma unauthorized_later (st : State.STGState) (t0 t1 : Js.number) (s : string) :
  unauthorized st t0 s = true -> Js.le t0 t1 = true -> unauthorized st t1 s = true.
Proof.
  unfold unauthorized. intros H Hle.
  destruct (negb (is_open st)); [reflexivity |]. cbn [orb] in *.
  destruct (negb (Gate.isScopeAuthorized s (State.scope st)));
    [apply orb_true_r |].
  rewrite orb_false_r in *.
  unfold Gate.expired in *. destruct (State.expires_at st) as [e |]; [| discriminate].
  now apply (gt_le_trans e t0 t1).
Qed.

(** The closure of the step touches neither the window nor the log. *)
Lemma genesis_closure_quiet task later : quiet (genesis_closure (E := E) task later).
Proof. intros w. split; reflexivity. Qed.

(** X19: without an authorization, or with one whose own expiry has
    passed, the genesis step returns null and does nothing else: the
    gate is not called, nothing is logged and no violation is recorded,
    whether or not the window is open and whatever the clock reads
    later. *)
Theorem genesisCognitiveStep_silent :
  forall task later w,
    genesisCognitiveStep task None later w = (Js.Returned None, w)
    /\ (forall auth,
          Js.gt (clock w) (expires_at auth) = true ->
          genesisCognitiveStep task (Some auth) later w = (Js.Returned None, w)).
Proof.
  intros task later w. split; [reflexivity |].
  intros auth Hgt. unfold genesisCognitiveStep, Date_now. now rewrite Hgt.
Qed.

(** X20: the genesis step reads the clock on its own and the gate reads
    it again.  With an authorization that has not expired at the step's
    read and a window that admits its scope at the gate's read, the step
    returns a result, never null and never an error: the log gains
    COGNITION_START stamped with the gate's read and COGNITION_END with
    reason completed stamped with the read after the task, the result is
    what [performGenesisTask] computes at the task's read (an ANALYZE
    task reports that read as analyzed_at), its kind is one of THOUGHT,
    REFLECTION, ANALYSIS and UNKNOWN, and the window state and
    everything else but the clock are untouched.  The id the
    authorization carries is not consulted. *)
Theorem genesisCognitiveStep_admitted :
  forall task auth later w,
    Js.gt (clock w) (expires_at auth) = false ->
    unauthorized (stg w) (at_gate later) (scope auth) = false ->
    let started := cognition_start (stg w) (at_gate later) (scope auth) in
    let ended := cognition_completed (stg w) (at_end later) (scope auth) in
    let w1 := logAuditEvent started (at_time (at_gate later) w) in
    let result := performGenesisTask task (at_time (at_task later) w1) in
    genesisCognitiveStep task (Some auth) later w
    = (Js.Returned (Some result),
       logAuditEvent ended (at_time (at_end later) w1))
    /\ log (snd (genesisCognitiveStep task (Some auth) later w))
       = (log w ++ [started; ended])%list
    /\ stg (snd (genesisCognitiveStep task (Some auth) later w)) = stg w
    /\ ext (snd (genesisCognitiveStep task (Some auth) later w)) = ext w
    /\ In (r_kind result) ["THOUGHT"; "REFLECTION"; "ANALYSIS"; "UNKNOWN"]
    /\ (kind task = "ANALYZE" ->
        result = mkGenesisResult "ANALYSIS"
                   (OutAnalysis "ANALYZE" (at_task later) (payload task))).
Proof.
  intros task auth later w Hgt Hok. cbv zeta.
  unfold unauthorized in Hok.
  apply orb_false_iff in Hok as [Hok Hauth].
  apply orb_false_iff in Hok as [Hopen Hexp].
  apply negb_false_iff in Hopen, Hauth.
  pose proof (gate_passes (genesis_closure task later) (scope auth)
                (at_time (at_gate later) w) Hopen Hexp Hauth) as Hadm.
  unfold admitted in Hadm. cbv zeta in Hadm.
  cbn [stg clock at_time] in Hadm.
  assert (Hstep : genesisCognitiveStep task (Some auth) later w
    = (Js.Returned (Some (performGenesisTask task
         (at_time (at_task later)
            (logAuditEvent (cognition_start (stg w) (at_gate later) (scope auth))
               (at_time (at_gate later) w))))),
       logAuditEvent (cognition_completed (stg w) (at_end later) (scope auth))
         (at_time (at_end later)
            (logAuditEvent (cognition_start (stg w) (at_gate later) (scope auth))
               (at_time (at_gate later) w))))).
  { unfold genesisCognitiveStep, Date_now. rewrite Hgt, Hadm. reflexivity. }
  rewrite Hstep. cbn [fst snd].
  split; [reflexivity |].
  split.
  { rewrite log_logAuditEvent.
    change (log (at_time (at_end later) ?x)) with (log x).
    rewrite log_logAuditEvent, <- app_assoc. reflexivity. }
  split; [reflexivity |].
  split; [reflexivity |].
  split.
  - unfold performGenesisTask.
    destruct (Js.str_eq (kind task) "THINK"); [cbn; tauto |].
    destruct (Js.str_eq (kind task) "REFLECT"); [cbn; tauto |].
    destruct (Js.str_eq (kind task) "ANALYZE"); cbn; tauto.
  - intros Hkind. unfold performGenesisTask. rewrite Hkind. reflexivity.
Qed.

(** X21: with an authorization that has not expired but a window that
    does not admit its scope, the genesis step does not return null: the
    error of the gate reaches the caller, and the violation of the
    failing check, stamped with the gate's read of the clock, is in the
    log.  This holds when the window refuses at the gate's read, and so
    whenever it refuses at the step's own read and the clock has not
    gone back since. *)
Theorem genesisCognitiveStep_refused :
  forall task auth later w,
    Js.gt (clock w) (expires_at auth) = false ->
    (unauthorized (stg w) (at_gate later) (scope auth) = true
     \/ (unauthorized (stg w) (clock w) (scope auth) = true
         /\ Js.le (clock w) (at_gate later) = true)) ->
    genesisCognitiveStep task (Some auth) later w
    = (Js.Threw (Js.new_Error (denial_message (stg w) (at_gate later) (scope auth))),
       logAuditEvent (violation_of (stg w) (at_gate later) (scope auth))
         (at_time (at_gate later) w))
    /\ threw_GateViolation (fst (genesisCognitiveStep task (Some auth) later w)) = true
    /\ log (snd (genesisCognitiveStep task (Some auth) later w))
       = (log w ++ [violation_of (stg w) (at_gate later) (scope auth)])%list.
Proof.
  intros task auth later w Hgt Hun.
  assert (Hgate : unauthorized (stg w) (at_gate later) (scope auth) = true).
  { destruct Hun as [H | [H Hle]]; [exact H |].
    now apply (unauthorized_later (stg w) (clock w)). }
  assert (Hstep : genesisCognitiveStep task (Some auth) later w
    = (Js.Threw (Js.new_Error (denial_message (stg w) (at_gate later) (scope auth))),
       logAuditEvent (violation_of (stg w) (at_gate later) (scope auth))
         (at_time (at_gate later) w))).
  { unfold genesisCognitiveStep, Date_now.
    rewrite Hgt, (gate_denies (genesis_closure task later) (scope auth)
                    (at_time (at_gate later) w) Hgate).
    reflexivity. }
  rewrite Hstep. cbn [fst snd].
  split; [reflexivity |].
  split; [apply (denial_message_tagged (stg w) (at_gate later) (scope auth)) |].
  apply (log_logAuditEvent _ (at_time (at_gate later) w)).
Qed.

End GenesisFacts.

(** ** The observation snapshot *)

Section SnapshotFacts.
Import Proc Spec Behaviour Observation.
Context {E : Type}.
Implicit Types (w : World E).

(** The indexing of [getAliveSnapshot] picks the last event. *)
Lemma last_by_index {A} (l : list A) :
  (if Nat.ltb 0 (length l) then l !! (length l - 1) else None) = last l.
Proof.
  destruct l as [| x l _] using rev_ind; [reflexivity |].
  rewrite length_app, last_snoc. cbn [length].
  replace (0 <? length l + 1)%nat with true by (symmetry; apply Nat.ltb_lt; lia).
  replace (length l + 1 - 1) with (length l + 0) by lia.
  now rewrite lookup_app_r, Nat.add_0_r, Nat.sub_diag by lia.
Qed.

Lemma getAliveSnapshot_value w :
  getAliveSnapshot w
  = {| stg_state := State.state (stg w);
       last_event := option_map Audit.type (last (log w));
       last_event_time := option_map Audit.timestamp (last (log w));
       scope := State.scope (stg w);
       expires_at := State.expires_at (stg w) |}.
Proof.
  unfold getAliveSnapshot. cbv zeta. now rewrite last_by_index.
Qed.

(** X22: the snapshot shows the window state and the newest audit event.
    On an empty log it shows no event; after a refused call of the gate
    it shows a CONSTITUTIONAL_VIOLATION at the time of the call and the
    window as it was; after [closeSTG] it shows CLOSED with scope and
    expiry null and the same last event as before, closing not being
    logged. *)
Theorem getAliveSnapshot_follows_gate :
  forall w,
    (log w = [] ->
     last_event (getAliveSnapshot w) = None
     /\ last_event_time (getAliveSnapshot w) = None)
    /\ (forall {T} (task : Task E T) (s : string),
          unauthorized (stg w) (clock w) s = true ->
          getAliveSnapshot (snd (Gate.runCognitiveCycle task s w))
          = {| stg_state := State.state (stg w);
               last_event := Some Audit.CONSTITUTIONAL_VIOLATION;
               last_event_time := Some (clock w);
               scope := State.scope (stg w);
               expires_at := State.expires_at (stg w) |})
    /\ (forall now : Js.number,
          getAliveSnapshot (closeSTG now w)
          = {| stg_state := State.CLOSED;
               last_event := last_event (getAliveSnapshot w);
               last_event_time := last_event_time (getAliveSnapshot w);
               scope := None;
               expires_at := None |}).
Proof.
  intros w. split; [| split].
  - intros Hempty. rewrite getAliveSnapshot_value. cbn. now rewrite Hempty.
  - intros T task s Hun.
    rewrite (gate_denies task s w Hun). cbn [snd].
    rewrite getAliveSnapshot_value, log_logAuditEvent, last_snoc.
    cbn [option_map stg logAuditEvent].
    rewrite violation_of_type. f_equal.
    unfold violation_of.
    destruct (negb (is_open (stg w))); [reflexivity |].
    destruct (Gate.expired (clock w) (stg w)); reflexivity.
  - intros now. rewrite !getAliveSnapshot_value. reflexivity.
Qed.

End SnapshotFacts.

(** ** Further properties at concrete stores *)

Section MoreInstances.
Import Proc Spec Behaviour.

Lemma slow_task_quiet {E T} (v : T) (later : Js.number) :
  quiet (slow_task (E := E) v later).
Proof. intros w. split; reflexivity. Qed.

Lemma throwing_quiet {E T} (e : Js.thrown) : quiet (throwing (E := E) (T := T) e).
Proof. intros w. split; reflexivity. Qed.

(** X4 at the demo opening: a cognition completed at the expiry time. *)
Lemma time_bounds_witness :
  Invariants.stg_open_id demo_open_event = "w-1"
  /\ Invariants.scopeIsSubset "demo.think" (Invariants.scope demo_open_event) = true
  /\ Invariants.verifyCognitionAuthorization
       (Invariants.mkCognitionEvent "w-1" "demo.think" 2000%float)
       [demo_open_event] = true
  /\ Invariants.verifyCognitionAuthorization
       (Invariants.mkCognitionEvent "w-1" "demo.think" 900%float)
       [demo_open_event] = false.
Proof.
  split; [reflexivity |].
  split; [reflexivity |].
  split.
  - apply (verifyCognitionAuthorization_time_bounds
             (Invariants.mkCognitionEvent "w-1" "demo.think" 2000%float)
             demo_open_event); reflexivity.
  - destruct (verifyCognitionAuthorization_time_bounds
                (Invariants.mkCognitionEvent "w-1" "demo.think" 900%float)
                demo_open_event eq_refl eq_refl) as (_ & Hissue & _).
    apply Hissue. reflexivity.
Defined.

(** X6 under the policy of the well-formed parameters. *)
Lemma nan_witness :
  Js.lt 10%float 0%float = false
  /\ Core.evaluateGate (Core.mkSignals nan nan true true "demo")
       (Core.mkPolicy 0.5%float 0.25%float 1000%float 100%float 5000%float
          {[ "demo" ]} "h") 10%float 0%float
     = Core.mkResult Core.OPEN "thresholds_satisfied".
Proof.
  split; [reflexivity |].
  apply (evaluateGate_nan
           (Core.mkPolicy 0.5%float 0.25%float 1000%float 100%float 5000%float
              {[ "demo" ]} "h") 10%float 0%float "demo").
  reflexivity.
Defined.

(** X10 at an open window with a null scope. *)
Lemma null_scope_witness :
  State.state (stg null_scope_world) = State.OPEN
  /\ State.scope (stg null_scope_world) = None
  /\ Gate.expired (clock null_scope_world) (stg null_scope_world) = false
  /\ fst (Gate.runCognitiveCycle (set_flag "X") "demo" null_scope_world)
     = Js.Threw (Js.new_Error
         "CONSTITUTIONAL_VIOLATION: Scope 'demo' not authorized (authorized: 'null')").
Proof.
  split; [reflexivity |].
  split; [reflexivity |].
  split; [reflexivity |].
  now rewrite (runCognitiveCycle_null_scope (set_flag "X") "demo" null_scope_world
                 eq_refl eq_refl eq_refl).
Defined.

(** X11 on two calls inside the demo window, one with a task that
    throws an Error. *)
Lemma admitted_burst_witness :
  Forall (fun x => unauthorized (stg demo_world) (a_now x) (a_scope x) = false
                   /\ quiet (a_task x)) open_burst
  /\ Forall (fun x => convertible (a_task x)) open_burst
  /\ map Audit.type (log (snd (burst open_burst demo_world)))
     = (map Audit.type (log demo_world) ++ start_end_pairs (length open_burst))%list
  /\ stg (snd (burst open_burst demo_world)) = demo_state.
Proof.
  assert (H : Forall (fun x => unauthorized (stg demo_world) (a_now x) (a_scope x) = false
                               /\ quiet (a_task x)) open_burst).
  { constructor; [split; [reflexivity | apply slow_task_quiet] |].
    constructor; [split; [reflexivity | apply throwing_quiet] |].
    constructor. }
  assert (Hc : Forall (fun x : @Attempt bool string => convertible (a_task x)) open_burst).
  { constructor; [intros w e He; discriminate He |].
    constructor; [| constructor].
    intros w e He. inversion He. discriminate. }
  split; [exact H |].
  split; [exact Hc |].
  destruct (burst_of_admitted_calls open_burst demo_world H) as (Hstg & _ & _ & Hconv).
  destruct (Hconv Hc) as [Htypes _].
  split; [exact Htypes | exact Hstg].
Defined.

(** X12 with the demo parameters on a closed store. *)
Lemma open_call_close_call_witness :
  scope_within "demo.think" (State.o_scope demo_params)
  /\ Js.le 1500%float (State.o_expires_at demo_params) = true
  /\ admitted (set_flag "X") "demo.think"
       (at_time 1500%float (openSTG demo_params closed_world)).
Proof.
  assert (Hin : scope_within "demo.think" (State.o_scope demo_params))
    by (right; reflexivity).
  split; [exact Hin |].
  split; [reflexivity |].
  apply (open_call_close_call demo_params (set_flag "X") "demo.think" 1500%float
           closed_world Hin eq_refl).
Defined.

(** X13 at the demo window after its expiry. *)
Lemma expiry_closes_witness :
  State.state (stg late_world) = State.OPEN
  /\ Gate.expired (clock late_world) (stg late_world) = true
  /\ State.state (stg (snd (Phase38.runExecution demo_request late_world)))
     = State.CLOSED.
Proof.
  split; [reflexivity |].
  split; [reflexivity |].
  destruct (runExecution_expiry_closes_window demo_request late_world eq_refl eq_refl)
    as (_ & Hstg & _).
  now rewrite Hstg.
Defined.

(** X15 at the demo window: the same request, carried out twice. *)
Lemma does_not_consume_witness :
  exec_refused (stg demo_world) (clock demo_world) (Phase38.scope exact_request) = false
  /\ quiet (Phase38.execute exact_request)
  /\ executed exact_request
       (at_time 1300%float (snd (Phase38.runExecution exact_request demo_world))).
Proof.
  split; [reflexivity |].
  split; [apply slow_task_quiet |].
  apply (runExecution_does_not_consume exact_request demo_world eq_refl
           (slow_task_quiet "done" 1200%float)).
  reflexivity.
Defined.

(** X16 at the demo window. *)
Lemma stricter_witness :
  exec_refused (stg demo_world) (clock demo_world) (Phase38.scope exact_request) = false
  /\ admitted (Phase38.execute exact_request) (Phase38.scope exact_request) demo_world.
Proof.
  split; [reflexivity |].
  apply (runExecution_stricter_than_gate exact_request demo_world). reflexivity.
Defined.

(** X17 on a log that holds one event. *)
Lemma live_until_cleared_witness :
  log_allocated (Audit.logAuditEvent sample_event Audit.initial)
  /\ Audit.elements
       (Audit.getAuditLog (Audit.logAuditEvent sample_event Audit.initial))
       (Audit.logAuditEvent sample_event
          (Audit.clearAuditLog (Audit.logAuditEvent sample_event Audit.initial)))
     = Audit.elements
         (Audit.getAuditLog (Audit.logAuditEvent sample_event Audit.initial))
         (Audit.logAuditEvent sample_event Audit.initial).
Proof.
  assert (H : log_allocated (Audit.logAuditEvent sample_event Audit.initial))
    by (exists [sample_event]; reflexivity).
  split; [exact H |].
  apply (getAuditLog_live_until_cleared
           (Audit.logAuditEvent sample_event Audit.initial) sample_event H).
Defined.

(** X20 at the demo window, with an authorization that names another
    window and a clock that moves from 1000 to 1003 during the step. *)
Lemma genesis_admitted_witness :
  Js.gt (clock demo_world) (Genesis.expires_at demo_auth) = false
  /\ unauthorized (stg demo_world) (Genesis.at_gate demo_readings)
       (Genesis.scope demo_auth) = false
  /\ fst (Genesis.genesisCognitiveStep analyze_task (Some demo_auth) demo_readings
            demo_world)
     = Js.Returned (Some (Genesis.mkGenesisResult "ANALYSIS"
                            (Genesis.OutAnalysis "ANALYZE" 1002%float (Some "data"))))
  /\ map Audit.timestamp
       (log (snd (Genesis.genesisCognitiveStep analyze_task (Some demo_auth)
                    demo_readings demo_world)))
     = [1001%float; 1003%float].
Proof.
  split; [reflexivity |].
  split; [reflexivity |].
  destruct (genesisCognitiveStep_admitted analyze_task demo_auth demo_readings
              demo_world eq_refl eq_refl) as (Hstep & _).
  rewrite Hstep. split; reflexivity.
Defined.

(** X21 at a window that expires at 1000: the step reads 1000 and goes
    on, the gate reads 1001 and refuses with reason stg_expired. *)
Lemma genesis_refused_witness :
  Js.gt (clock edge_world) (Genesis.expires_at demo_auth) = false
  /\ unauthorized (stg edge_world) (clock edge_world) (Genesis.scope demo_auth) = false
  /\ unauthorized (stg edge_world) (Genesis.at_gate demo_readings)
       (Genesis.scope demo_auth) = true
  /\ fst (Genesis.genesisCognitiveStep think_task (Some demo_auth) demo_readings
            edge_world)
     = Js.Threw (Js.new_Error "CONSTITUTIONAL_VIOLATION: STG_OPEN has expired")
  /\ map Audit.reason
       (log (snd (Genesis.genesisCognitiveStep think_task (Some demo_auth)
                    demo_readings edge_world)))
     = ["stg_expired"].
Proof.
  split; [reflexivity |].
  split; [reflexivity |].
  split; [reflexivity |].
  destruct (genesisCognitiveStep_refused think_task demo_auth demo_readings
              edge_world eq_refl (or_introl eq_refl)) as (Hstep & _).
  rewrite Hstep. split; reflexivity.
Defined.

(** The genesis step with a stale authorization, and the snapshot of the
    demo store before and after a refused call. *)
Example genesis_and_snapshot :
  Genesis.genesisCognitiveStep think_task (Some stale_auth) demo_readings demo_world
  = (Js.Returned None, demo_world)
  /\ Observation.last_event (Observation.getAliveSnapshot demo_world) = None
  /\ Observation.last_event
       (Observation.getAliveSnapshot
          (snd (Gate.runCognitiveCycle (set_flag "X") "other" demo_world)))
     = Some Audit.CONSTITUTIONAL_VIOLATION.
Proof. repeat split; reflexivity. Qed.

(** A callback that throws a value whose conversion throws, under
    [runExecution]: a TypeError reaches the caller and the log holds the
    EXECUTION_START alone. *)
Example runExecution_unconvertible :
  let r := Phase38.runExecution
             (Phase38.mkRequest "demo" (throwing (T := string) Js.Unconvertible) None)
             demo_world in
  fst r = Js.Threw Js.conversion_TypeError
  /\ map Audit.type (log (snd r)) = [Audit.EXECUTION_START].
Proof. split; reflexivity. Qed.

End MoreInstances.
